(** * AI visibility checker: the scoring engine of the analysis route

    A shallow embedding of the route handler [POST] and of its two helpers
    [countWords] and [calculateReadability], followed by the properties of
    the scoring engine: bounds of the ten criteria, aggregation,
    recommendations, and the behaviour of single evaluators.

    What the handler takes from its platform and libraries (lowercasing,
    date parsing, the clock, the network, the HTML parser) enters as
    parameters: the classes [Runtime] and [Network], the record [Clock]
    and the query record [Cheerio].

    JavaScript numbers that the handler divides or compares as fractions are
    IEEE binary64 values ([float]); scores, which are sums of small integer
    constants, are integers ([Z]).  Strings coming from the page are
    sequences of UTF-16 code units; the finding and advisory messages, which
    the handler only appends, are string literals. *)

From Stdlib Require Import ZArith NArith List String Ascii Bool Lia.
From Stdlib Require Import Floats DecimalString.
Import ListNotations.

Set Warnings "-inexact-float,-register-all".

(* ================================================================== *)
(** ** JavaScript strings *)
(* ================================================================== *)

Module JS.

(** A string is the list of its UTF-16 code units. *)
Definition jsstring := list N.

(** An ASCII literal of the source, as code units. *)
Definition lit (s : string) : jsstring := map N_of_ascii (list_ascii_of_string s).

(** The double quote character, U+0022. *)
Definition dquote : N := 34%N.

(** [s.length > 0], the truth value of a string. *)
Definition nonEmpty (s : jsstring) : bool :=
  match s with [] => false | _ :: _ => true end.

(** [a === b] on strings. *)
Fixpoint eqb (a b : jsstring) : bool :=
  match a, b with
  | [], [] => true
  | x :: a', y :: b' => N.eqb x y && eqb a' b'
  | _, _ => false
  end.

(** [s.startsWith(pat)] at position 0. *)
Fixpoint startsWith (s pat : jsstring) : bool :=
  match pat, s with
  | [], _ => true
  | _ :: _, [] => false
  | p :: pat', c :: s' => N.eqb p c && startsWith s' pat'
  end.

(** [s.includes(pat)]: [pat] occurs in [s] as a contiguous substring. *)
Fixpoint includes (s pat : jsstring) : bool :=
  startsWith s pat ||
  match s with
  | [] => false
  | _ :: t => includes t pat
  end.

(** The class [\s] of regular expressions, which is also what [trim]
    strips: WhiteSpace and LineTerminator code points. *)
Definition isWhiteSpace (c : N) : bool :=
  match c with
  | 9 | 10 | 11 | 12 | 13 | 32 | 160 | 5760
  | 8232 | 8233 | 8239 | 8287 | 12288 | 65279 => true
  | _ => (8192 <=? c) && (c <=? 8202)
  end%N.

(** The class [[.!?]]. *)
Definition isSentenceEnd (c : N) : bool :=
  match c with
  | 46 | 33 | 63 => true
  | _ => false
  end%N.

Fixpoint dropWhile (f : N -> bool) (s : jsstring) : jsstring :=
  match s with
  | [] => []
  | c :: t => if f c then dropWhile f t else s
  end.

(** [s.trim()] *)
Definition trim (s : jsstring) : jsstring :=
  rev (dropWhile isWhiteSpace (rev (dropWhile isWhiteSpace s))).

(** [s.split(/[sep]+/)]: the pieces between maximal runs of separator
    code units.  [cur] is the piece being read, reversed; [inRun] says that
    the previous code unit was a separator.  As in JavaScript a separator
    at either end leaves an empty piece there, and the empty string splits
    into one empty piece. *)
Fixpoint splitRuns (sep : N -> bool) (s : jsstring) (cur : jsstring) (inRun : bool)
  : list jsstring :=
  match s with
  | [] => [rev cur]
  | c :: t =>
      if sep c
      then if inRun then splitRuns sep t [] true
           else rev cur :: splitRuns sep t [] true
      else splitRuns sep t (c :: cur) false
  end.

Definition split (sep : N -> bool) (s : jsstring) : list jsstring :=
  splitRuns sep s [] false.

(** [(s.match(/c/g) || []).length]: the occurrences of one code unit. *)
Definition countChar (c : N) (s : jsstring) : nat :=
  List.length (filter (N.eqb c) s).

(** [n.toString()] for an integer-valued number. *)
Definition intToString (z : Z) : jsstring :=
  lit (NilZero.string_of_int (Z.to_int z)).

(** The ASCII part of [toLowerCase]: A-Z to a-z, everything else kept. *)
Definition asciiLower (s : jsstring) : jsstring :=
  map (fun c => if (65 <=? c) && (c <=? 90) then c + 32 else c)%N s.

End JS.
Import JS.

(* ================================================================== *)
(** ** JavaScript numbers *)
(* ================================================================== *)

Module Num.

Open Scope float_scope.

(** The binary64 value of an integer (exact below 2^53). *)
Definition ofZ (z : Z) : float := SF2Prim (binary_normalize prec emax z 0 false).
Definition ofNat (n : nat) : float := ofZ (Z.of_nat n).

(** [a >= b] and [a > b]; like [<=] and [<] they are false on NaN. *)
Definition geb (a b : float) : bool := b <=? a.
Definition gtb (a b : float) : bool := b <? a.

(** [Math.max(a, b)] and [Math.min(a, b)]: NaN if either is NaN, and
    [+0] is larger than [-0]. *)
Definition Math_max (a b : float) : float :=
  if is_nan a || is_nan b then nan
  else if a <? b then b
  else if b <? a then a
  else if get_sign a then b else a.

Definition Math_min (a b : float) : float :=
  if is_nan a || is_nan b then nan
  else if a <? b then a
  else if b <? a then b
  else if get_sign a then a else b.

End Num.

(* ================================================================== *)
(** ** Values of the request body *)
(* ================================================================== *)

(** What [JSON.parse] can produce. *)
Inductive Json : Type :=
| JNull
| JBool (b : bool)
| JNumber (x : float)
| JString (s : jsstring)
| JArray (items : list Json)
| JObject (members : list (jsstring * Json)).

(** The value of an expression that may be [undefined]. *)
Definition JsValue := option Json.

(** Truth value of a condition [if (v)] / [!v]. *)
Definition truthy (v : JsValue) : bool :=
  match v with
  | None => false
  | Some JNull => false
  | Some (JBool b) => b
  | Some (JNumber x) => negb (is_zero x || is_nan x)
  | Some (JString s) => nonEmpty s
  | Some (JArray _) => true
  | Some (JObject _) => true
  end.

(** The member a parsed object holds under [key]: the last one wins. *)
Fixpoint lookupLast (key : jsstring) (members : list (jsstring * Json)) (found : JsValue)
  : JsValue :=
  match members with
  | [] => found
  | (k, v) :: rest =>
      lookupLast key rest (if JS.eqb k key then Some v else found)
  end.

(** [const { url } = body]: [None] when the destructuring throws (the body
    is [null]); a body that is not an object has no [url] property. *)
Definition destructureUrl (body : Json) : option JsValue :=
  match body with
  | JNull => None
  | JObject members => Some (lookupLast (lit "url") members None)
  | _ => Some None
  end.

Section ToString.

(** [Number.prototype.toString] on an arbitrary double is left to the
    platform. *)
Variable NumberToString : float -> jsstring.

(** The string a value converts to where the handler uses it as one. *)
Fixpoint ToString (v : Json) : jsstring :=
  match v with
  | JNull => lit "null"
  | JBool true => lit "true"
  | JBool false => lit "false"
  | JNumber x => NumberToString x
  | JString s => s
  | JArray items =>
      (fix join (l : list Json) : jsstring :=
         match l with
         | [] => []
         | x :: rest =>
             let sx := match x with JNull => [] | _ => ToString x end in
             match rest with
             | [] => sx
             | _ :: _ => sx ++ lit "," ++ join rest
             end
         end) items
  | JObject _ => lit "[object Object]"
  end.

End ToString.

(* ================================================================== *)
(** ** The parsed page and the result *)
(* ================================================================== *)

(** What the handler reads through the cheerio handle [$].  Selectors and
    attribute names are the strings the handler passes. *)
Record Cheerio : Type := {
  (** [$(sel).length] *)
  sel_length : jsstring -> nat;
  (** [$(sel).text()] *)
  sel_text : jsstring -> jsstring;
  (** [$(sel).attr(name)], [None] for [undefined] *)
  sel_attr : jsstring -> jsstring -> option jsstring;
  (** [$(e).attr(name)] for each element [e] of [$(sel)], in order *)
  sel_each_attr : jsstring -> jsstring -> list (option jsstring)
}.

(** One fetched page: the [url] of the request, [response.data] and the
    handle cheerio built from it. *)
Record Document : Type := {
  doc_url : Json;
  doc_data : jsstring;
  doc_dom : Cheerio
}.

(** The two readings the handler takes of [new Date()]. *)
Record Clock : Type := {
  getTime : float;
  getFullYear : Z
}.

Record CriteriaScore : Type := {
  score : Z;
  max : Z;
  details : list string
}.

Record Criteria : Type := {
  structure : CriteriaScore;
  author : CriteriaScore;
  metadata : CriteriaScore;
  keywords : CriteriaScore;
  tone : CriteriaScore;
  credibility : CriteriaScore;
  readability : CriteriaScore;
  freshness : CriteriaScore;
  comprehensiveness : CriteriaScore;
  citations : CriteriaScore
}.

Record AnalysisResult : Type := {
  url : Json;
  totalScore : Z;
  maxScore : Z;
  percentage : float;
  criteria : Criteria;
  recommendations : list string;
  researchInsights : list string
}.

(** [Object.values(analysis.criteria)], in insertion order. *)
Definition criteriaValues (c : Criteria) : list CriteriaScore :=
  [structure c; author c; metadata c; keywords c; tone c; credibility c;
   readability c; freshness c; comprehensiveness c; citations c].

(** The initial [{ score: 0, max: m, details: [] }]. *)
Definition initial (m : Z) : CriteriaScore :=
  {| score := 0; max := m; details := [] |}.

(** [c.score += n; c.details.push(msg)] *)
Definition award (n : Z) (msg : string) (c : CriteriaScore) : CriteriaScore :=
  {| score := score c + n; max := max c; details := details c ++ [msg] |}.

(** [c.details.push(msg)] *)
Definition push (msg : string) (c : CriteriaScore) : CriteriaScore :=
  {| score := score c; max := max c; details := details c ++ [msg] |}.

(** [c.score = n] *)
Definition setScore (n : Z) (c : CriteriaScore) : CriteriaScore :=
  {| score := n; max := max c; details := details c |}.

(** [list.filter((k) => text.includes(k)).length] *)
Definition countIncluded (text : jsstring) (list : list jsstring) : nat :=
  List.length (filter (fun k => includes text k) list).

(** [list.some((k) => text.includes(k))] *)
Definition someIncluded (text : jsstring) (list : list jsstring) : bool :=
  existsb (fun k => includes text k) list.

(** Truth value of an attribute read: [undefined] and the empty string are
    false. *)
Definition attrTruthy (a : option jsstring) : bool :=
  match a with
  | Some s => nonEmpty s
  | None => false
  end.

(** [a || b] on attribute reads. *)
Definition orElse (a b : option jsstring) : option jsstring :=
  if attrTruthy a then a else b.

(** [a || ""] *)
Definition orEmpty (a : option jsstring) : jsstring :=
  match orElse a (Some []) with
  | Some s => s
  | None => []
  end.

(* ================================================================== *)
(** ** Helpers of the route *)
(* ================================================================== *)

(** [text.trim().split(/\s+/).filter((word) => word.length > 0)] *)
Definition wordsOf (text : jsstring) : list jsstring :=
  filter (fun word => 0 <? List.length word)%nat (split isWhiteSpace (trim text)).

(** [text.split(/[.!?]+/).filter((s) => s.trim().length > 0)] *)
Definition sentencesOf (text : jsstring) : list jsstring :=
  filter (fun sentence => 0 <? List.length (trim sentence))%nat (split isSentenceEnd text).

Definition countWords (text : jsstring) : nat :=
  List.length (wordsOf text).

Definition calculateReadability (text : jsstring) : float :=
  let words := wordsOf text in
  let sentences := sentencesOf text in
  if (List.length sentences =? 0)%nat || (List.length words =? 0)%nat then 0%float
  else
    let avgWordsPerSentence :=
      (Num.ofNat (List.length words) / Num.ofNat (List.length sentences))%float in
    let longWords := List.length (filter (fun word => 6 <? List.length word)%nat words) in
    let percentLongWords :=
      (Num.ofNat longWords / Num.ofNat (List.length words) * 100)%float in
    let readabilityScore :=
      (206.835 - 1.015 * avgWordsPerSentence - 0.846 * percentLongWords)%float in
    Num.Math_min 100 (Num.Math_max 0 readabilityScore).

(* ================================================================== *)
(** ** The platform *)
(* ================================================================== *)

(** [response.data] of a successful [axios.get]: text, or a value axios
    decoded that has no [toLowerCase]. *)
Inductive ResponseData : Type :=
| TextData (data : jsstring)
| OtherData.

(** Platform functions the handler calls and this development does not
    define: [String.prototype.toLowerCase], the time value of
    [new Date(s)] (NaN when [s] is not a date) and
    [Number.prototype.toString]. *)
Class Runtime : Type := {
  toLowerCase : jsstring -> jsstring;
  dateGetTime : jsstring -> float;
  NumberToString : float -> jsstring
}.

(** The network and the two libraries: whether [new URL(s)] succeeds,
    [axios.get(url, ...)] ([None] when it throws: timeout, unreachable
    host, non-success status), and [cheerio.load(data)]. *)
Class Network : Type := {
  URL_parses : jsstring -> bool;
  axios_get : Json -> option ResponseData;
  cheerio_load : jsstring -> Cheerio
}.

(* ================================================================== *)
(** ** The scoring engine *)
(* ================================================================== *)

Section Engine.

Context {rt : Runtime}.

Local Open Scope string_scope.
Local Open Scope Z_scope.

(** A selector or phrase with a part in double quotes:
    [pre"mid"post]. *)
Definition quoted (pre mid post : string) : jsstring :=
  (lit pre ++ [dquote] ++ lit mid ++ [dquote] ++ lit post)%list.

Definition plainText (d : Document) : jsstring :=
  sel_text (doc_dom d) (lit "body").

Definition text (d : Document) : jsstring :=
  toLowerCase (sel_text (doc_dom d) (lit "body")).

Definition html (d : Document) : jsstring :=
  toLowerCase (doc_data d).

(** *** 1. Structure (10 points) *)

Definition structureAnalysis (d : Document) : CriteriaScore :=
  let headings := sel_length (doc_dom d) (lit "h1, h2, h3, h4, h5, h6") in
  let lists := sel_length (doc_dom d) (lit "ul, ol") in
  let paragraphs := sel_length (doc_dom d) (lit "p") in
  let tableOfContents :=
    includes (text d) (lit "table of contents") || includes (text d) (lit "contents") in
  let c := initial 10 in
  let c := if (3 <=? headings)%nat
           then award 3 "✓ Good heading structure (3+ headings)" c
           else push "✗ Limited heading structure" c in
  let c := if (2 <=? lists)%nat
           then award 2 "✓ Contains lists/bullet points" c
           else push "✗ No lists or bullet points found" c in
  let c := if (5 <=? paragraphs)%nat
           then award 2 "✓ Well-structured paragraphs" c
           else push "✗ Limited paragraph structure" c in
  let c := if tableOfContents
           then award 2 "✓ Table of contents present" c
           else push "✗ No table of contents" c in
  if (2000 <? List.length (doc_data d))%nat
  then award 1 "✓ Substantial content length" c
  else push "✗ Content appears too short" c.

(** *** 2. Author (8 points) *)

Definition authorSelectors : list jsstring :=
  [lit "author"; lit "byline"; lit "writer"; lit "by-author"; lit "post-author";
   quoted "[rel=" "author" "]"; lit ".author"; lit "#author";
   quoted "[class*=" "author" "]"].

Definition authorKeywords : list jsstring :=
  [lit "written by"; lit "author:"; lit "by "; lit "published by"].

Definition bioKeywords : list jsstring :=
  [lit "bio"; lit "about the author"; lit "profile"; lit "credentials"].

Definition expertiseKeywords : list jsstring :=
  [lit "expert"; lit "specialist"; lit "phd"; lit "professor"; lit "researcher";
   lit "years of experience"].

Definition authorAnalysis (d : Document) : CriteriaScore :=
  let authorFound :=
    existsb (fun selector => (0 <? sel_length (doc_dom d) selector)%nat) authorSelectors in
  let hasAuthorKeywords := someIncluded (text d) authorKeywords in
  let c := initial 8 in
  let c := if authorFound || hasAuthorKeywords
           then award 4 "✓ Author information present" c
           else push "✗ No clear author attribution" c in
  let hasBio := someIncluded (text d) bioKeywords in
  let c := if hasBio
           then award 2 "✓ Author bio/credentials found" c
           else push "✗ No author bio or credentials" c in
  let hasExpertise := someIncluded (text d) expertiseKeywords in
  if hasExpertise
  then award 2 "✓ Expertise indicators found" c
  else push "✗ No clear expertise indicators" c.

(** *** 3. Metadata (8 points) *)

Definition descriptionSelector : jsstring := quoted "meta[name=" "description" "]".

Definition title (d : Document) : jsstring :=
  sel_text (doc_dom d) (lit "title").

Definition description (d : Document) : jsstring :=
  orEmpty (sel_attr (doc_dom d) descriptionSelector (lit "content")).

Definition publishDate (d : Document) : option jsstring :=
  orElse
    (orElse
       (sel_attr (doc_dom d) (quoted "meta[property=" "article:published_time" "]")
          (lit "content"))
       (sel_attr (doc_dom d) (quoted "meta[name=" "date" "]") (lit "content")))
    (sel_attr (doc_dom d) (lit "time") (lit "datetime")).

Definition metadataAnalysis (d : Document) : CriteriaScore :=
  let c := initial 8 in
  let c := if nonEmpty (title d) && (10 <? List.length (title d))%nat
           then award 2 "✓ Descriptive title present" c
           else push "✗ Missing or poor title" c in
  let c := if nonEmpty (description d) && (50 <? List.length (description d))%nat
           then award 3 "✓ Good meta description" c
           else push "✗ Missing or poor meta description" c in
  let c := if attrTruthy (publishDate d)
           then award 2 "✓ Publication date found" c
           else push "✗ No publication date" c in
  let hasSchema :=
    includes (html d) (lit "schema.org") || includes (html d) (lit "application/ld+json") in
  if hasSchema
  then award 1 "✓ Structured data present" c
  else push "✗ No structured data" c.

(** *** 4. Keywords (8 points) *)

Definition aiKeywords : list jsstring :=
  [lit "artificial intelligence"; lit "ai"; lit "machine learning"; lit "chatgpt";
   lit "gpt"; lit "openai"; lit "gemini"; lit "claude"; lit "llm";
   lit "large language model"; lit "deep learning"; lit "neural network";
   lit "automation"; lit "algorithm"].

Definition techKeywords : list jsstring :=
  [lit "technology"; lit "software"; lit "programming"; lit "development";
   lit "coding"; lit "data science"; lit "analytics"; lit "digital";
   lit "innovation"; lit "tech"].

Definition topicalKeywords : list jsstring :=
  [lit "how to"; lit "guide"; lit "tutorial"; lit "tips"; lit "best practices";
   lit "explained"].

Definition keywordsAnalysis (d : Document) : CriteriaScore :=
  let aiKeywordCount := countIncluded (text d) aiKeywords in
  let techKeywordCount := countIncluded (text d) techKeywords in
  let c := initial 8 in
  let c := if (3 <=? aiKeywordCount)%nat
           then award 4 "✓ Rich AI-related keywords" c
           else if (1 <=? aiKeywordCount)%nat
           then award 2 "✓ Some AI-related keywords" c
           else push "✗ No AI-related keywords" c in
  let c := if (3 <=? techKeywordCount)%nat
           then award 2 "✓ Technology keywords present" c
           else push "✗ Limited technology keywords" c in
  let hasTopicalKeywords := someIncluded (text d) topicalKeywords in
  if hasTopicalKeywords
  then award 2 "✓ Educational/informational keywords" c
  else push "✗ No educational keywords" c.

(** *** 5. Tone (6 points) *)

Definition salesyWords : list jsstring :=
  [lit "buy now"; lit "purchase"; lit "sale"; lit "discount"; lit "limited time";
   lit "act now"; lit "special offer"; lit "deal"; lit "price"; lit "$";
   lit "order now"; lit "subscribe now"].

Definition neutralWords : list jsstring :=
  [lit "according to"; lit "research shows"; lit "studies indicate";
   lit "experts say"; lit "analysis reveals"; lit "data suggests";
   lit "findings show"; lit "evidence"].

Definition toneAnalysis (d : Document) : CriteriaScore :=
  let salesyCount := countIncluded (text d) salesyWords in
  let neutralCount := countIncluded (text d) neutralWords in
  let c := initial 6 in
  let c := if (salesyCount <=? 2)%nat
           then award 3 "✓ Non-promotional tone" c
           else push "✗ Overly promotional language" c in
  if (2 <=? neutralCount)%nat
  then award 3 "✓ Objective, research-based tone" c
  else push "✗ Limited objective language" c.

(** *** 6. Credibility (15 points) *)

Definition citationPatterns : list jsstring :=
  [lit "according to"; lit "cited in"; lit "reference"; lit "source"; lit "study";
   lit "research"; lit "published in"; lit "journal"].

Definition statsPatterns : list jsstring :=
  [lit "%"; lit "percent"; lit "statistics"; lit "data shows"; lit "survey";
   lit "study found"].

Definition academicSignals : list jsstring :=
  [lit "university"; lit "institute"; lit "research center"; lit "laboratory";
   lit "academic"; lit "study"; lit "paper"; lit "journal"].

Definition factCheckingSignals : list jsstring :=
  [lit "fact"; lit "verified"; lit "evidence-based"; lit "proven"; lit "confirmed"].

Definition credibilityAnalysis (d : Document) : CriteriaScore :=
  let citationCount := countIncluded (text d) citationPatterns in
  let c := initial 15 in
  let c := if (3 <=? citationCount)%nat
           then award 4 "✓ Multiple references to external sources" c
           else if (1 <=? citationCount)%nat
           then award 2 "✓ Some references to external sources" c
           else push "✗ No references to external sources" c in
  let statsCount := countIncluded (text d) statsPatterns in
  let c := if (3 <=? statsCount)%nat
           then award 4 "✓ Contains statistics and data" c
           else if (1 <=? statsCount)%nat
           then award 2 "✓ Some statistics or data" c
           else push "✗ No statistics or data" c in
  let academicCount := countIncluded (text d) academicSignals in
  let c := if (2 <=? academicCount)%nat
           then award 4 "✓ Strong academic/institutional signals" c
           else if (1 <=? academicCount)%nat
           then award 2 "✓ Some academic/institutional signals" c
           else push "✗ No academic/institutional signals" c in
  let factCheckCount := countIncluded (text d) factCheckingSignals in
  if (2 <=? factCheckCount)%nat
  then award 3 "✓ Contains fact-checking signals" c
  else push "✗ No fact-checking signals" c.

(** *** 7. Readability (15 points) *)

Definition transitionWords : list jsstring :=
  [lit "however"; lit "therefore"; lit "furthermore"; lit "moreover";
   lit "consequently"; lit "additionally"; lit "in addition"; lit "for example";
   lit "for instance"; lit "in conclusion"].

Definition passiveVoiceMarkers : list jsstring :=
  [lit " is "; lit " are "; lit " was "; lit " were "; lit " be "; lit " been ";
   lit " by "].

Definition wordCount (d : Document) : nat := countWords (plainText d).

Definition sentenceCount (d : Document) : nat :=
  List.length (sentencesOf (plainText d)).

Definition avgSentenceLength (d : Document) : float :=
  (Num.ofNat (wordCount d) / Num.ofNat (sentenceCount d))%float.

Definition activeVoiceRatio (d : Document) : float :=
  let passiveVoicePatterns := countIncluded (text d) passiveVoiceMarkers in
  (1 - Num.ofNat passiveVoicePatterns / (Num.ofNat (wordCount d) / 10))%float.

Definition readabilityAnalysis (d : Document) : CriteriaScore :=
  let readabilityScore := calculateReadability (plainText d) in
  let c := initial 15 in
  let c := if Num.geb readabilityScore 60 && (readabilityScore <=? 70)%float
           then award 6 "✓ Optimal readability level (8th-9th grade)" c
           else if Num.geb readabilityScore 50 && (readabilityScore <? 60)%float
           then award 4 "✓ Good readability level (10th-12th grade)" c
           else if Num.gtb readabilityScore 70
           then award 3 "✓ Very simple readability (may lack depth)" c
           else award 1 "✗ Complex readability (college level or higher)" c in
  let c := if Num.geb (avgSentenceLength d) 10 && (avgSentenceLength d <=? 20)%float
           then award 3 "✓ Optimal average sentence length" c
           else if (avgSentenceLength d <? 10)%float
           then award 1 "✗ Sentences may be too short" c
           else award 1 "✗ Sentences may be too long" c in
  let transitionCount := countIncluded (text d) transitionWords in
  let c := if (3 <=? transitionCount)%nat
           then award 3 "✓ Good use of transition words" c
           else if (1 <=? transitionCount)%nat
           then award 1 "✓ Some transition words present" c
           else push "✗ No transition words found" c in
  if Num.gtb (activeVoiceRatio d) 0.7
  then award 3 "✓ Primarily active voice" c
  else if Num.gtb (activeVoiceRatio d) 0.5
  then award 2 "✓ Mix of active and passive voice" c
  else push "✗ Excessive passive voice" c.

(** *** 8. Freshness (10 points) *)

Definition recencySignals : list jsstring :=
  [lit "recent"; lit "latest"; lit "new"; lit "update"; lit "current"; lit "today";
   lit "this month"; lit "this year"].

(** [(now.getTime() - pubDate.getTime()) / (1000 * 60 * 60 * 24 * 30)] *)
Definition monthsAgo (now : Clock) (published : jsstring) : float :=
  ((getTime now - dateGetTime published) / (1000 * 60 * 60 * 24 * 30))%float.

(** The step function on the age of a structured date. *)
Definition ageScore (monthsAgo : float) : Z :=
  if (monthsAgo <=? 1)%float then 10
  else if (monthsAgo <=? 3)%float then 8
  else if (monthsAgo <=? 6)%float then 6
  else if (monthsAgo <=? 12)%float then 4
  else if (monthsAgo <=? 24)%float then 2
  else 0.

(** [dateScore] and [dateFound] after the structured date and the year
    fallback, before the recency signals are looked at. *)
Definition dateSignal (now : Clock) (d : Document) : Z * bool :=
  let '(dateScore, dateFound) :=
    match publishDate d with
    | Some published =>
        if nonEmpty published then (ageScore (monthsAgo now published), true)
        else (0, false)
    | None => (0, false)
    end in
  if negb dateFound then
    let currentYear := getFullYear now in
    let lastYear := currentYear - 1 in
    if includes (text d) (intToString currentYear) then (6, true)
    else if includes (text d) (intToString lastYear) then (4, true)
    else (dateScore, dateFound)
  else (dateScore, dateFound).

Definition recencyCount (d : Document) : nat :=
  countIncluded (text d) recencySignals.

Definition freshnessAnalysis (now : Clock) (d : Document) : CriteriaScore :=
  let '(dateScore, dateFound) := dateSignal now d in
  let c := initial 10 in
  let '(dateScore, c) :=
    if (2 <=? recencyCount d)%nat
    then (Z.min 10 (dateScore + 2), push "✓ Contains recency signals" c)
    else (dateScore, c) in
  let c := setScore dateScore c in
  if dateFound then
    if 8 <=? dateScore
    then push "✓ Very recent content (within 3 months)" c
    else if 4 <=? dateScore
    then push "✓ Relatively recent content (within a year)" c
    else push "✗ Content may be outdated" c
  else push "✗ No clear publication date found" c.

(** *** 9. Comprehensiveness (10 points) *)

Definition comprehensiveSignals : list jsstring :=
  [lit "complete"; lit "comprehensive"; lit "in-depth"; lit "detailed";
   lit "thorough"; lit "ultimate guide"; lit "everything you need to know"].

Definition perspectiveSignals : list jsstring :=
  [lit "on the other hand"; lit "alternatively"; lit "however"; lit "in contrast";
   lit "different perspective"; lit "another view"; lit "pros and cons";
   lit "advantages and disadvantages"].

Definition exampleSignals : list jsstring :=
  [lit "example"; lit "case study"; lit "instance"; lit "for instance";
   lit "such as"; lit "e.g."].

Definition comprehensivenessAnalysis (d : Document) : CriteriaScore :=
  let c := initial 10 in
  let c := if (1500 <=? wordCount d)%nat
           then award 4 "✓ In-depth content (1500+ words)" c
           else if (800 <=? wordCount d)%nat
           then award 3 "✓ Substantial content (800+ words)" c
           else if (400 <=? wordCount d)%nat
           then award 2 "✓ Moderate content length (400+ words)" c
           else push "✗ Content may be too brief" c in
  let comprehensiveCount := countIncluded (text d) comprehensiveSignals in
  let c := if (1 <=? comprehensiveCount)%nat
           then award 2 "✓ Claims to be comprehensive" c
           else c in
  let perspectiveCount := countIncluded (text d) perspectiveSignals in
  let c := if (2 <=? perspectiveCount)%nat
           then award 2 "✓ Presents multiple perspectives" c
           else push "✗ May present limited perspective" c in
  let exampleCount := countIncluded (text d) exampleSignals in
  if (2 <=? exampleCount)%nat
  then award 2 "✓ Includes examples or case studies" c
  else push "✗ Limited examples or illustrations" c.

(** *** 10. Citations (10 points) *)

Definition formalCitationPatterns : list jsstring :=
  [lit "et al"; lit "cited in"; lit "reference"; lit "bibliography";
   lit "works cited"; lit "references"; lit "citation"].

(** [$("a[href^='http']").filter(...).length]: the matched anchors whose
    [href] does not contain the analyzed [url] as a substring. *)
Definition externalLinks (d : Document) : nat :=
  List.length
    (filter
       (fun a => let href := orEmpty a in
                 negb (includes href (ToString NumberToString (doc_url d))))
       (sel_each_attr (doc_dom d) (lit "a[href^='http']") (lit "href"))).

Definition formalCitationCount (d : Document) : nat :=
  countIncluded (text d) formalCitationPatterns.

(** Occurrences of the double quote, halved. *)
Definition quoteCount (d : Document) : float :=
  (Num.ofNat (countChar dquote (text d)) / 2)%float.

Definition citationsAnalysis (d : Document) : CriteriaScore :=
  let c := initial 10 in
  let c := if (5 <=? externalLinks d)%nat
           then award 4 "✓ Multiple external links (5+)" c
           else if (2 <=? externalLinks d)%nat
           then award 2 "✓ Some external links" c
           else push "✗ Few or no external links" c in
  let c := if (2 <=? formalCitationCount d)%nat
           then award 3 "✓ Formal citations present" c
           else push "✗ No formal citations" c in
  if Num.geb (quoteCount d) 3
  then award 3 "✓ Multiple quoted sources" c
  else if Num.geb (quoteCount d) 1
  then award 1 "✓ Some quoted content" c
  else push "✗ No quoted sources" c.

(** *** Aggregation and recommendations *)

Definition researchInsightsList : list string :=
  ["AI systems like ChatGPT prefer to cite content with clear authorship and expertise signals";
   "Content with factual statements, statistics, and research citations is more likely to be referenced";
   "Well-structured content with clear headings and organization is prioritized by AI systems";
   "Recent and up-to-date information is more likely to be cited than outdated content";
   "Content from domains with established authority receives preferential treatment in AI citations";
   "Educational and informational content is cited more frequently than promotional material";
   "Content with neutral, objective tone is preferred over opinionated or biased writing"].

Definition adviceStructure : string :=
  "Add more headings, lists, and a table of contents to improve content structure".
Definition adviceAuthor : string :=
  "Include clear author attribution, credentials, and expertise signals".
Definition adviceMetadata : string :=
  "Improve meta description, add publication date, and implement schema markup".
Definition adviceKeywords : string :=
  "Include more relevant AI and technology keywords".
Definition adviceTone : string :=
  "Use more neutral, research-based language and reduce promotional content".
Definition adviceCredibility : string :=
  "Add references to research, statistics, and academic sources to boost credibility".
Definition adviceReadability : string :=
  "Improve readability by using shorter sentences, active voice, and transition words".
Definition adviceFreshness : string :=
  "Update content with current information and clearly display publication date".
Definition adviceComprehensiveness : string :=
  "Expand content depth with more examples, multiple perspectives, and detailed coverage".
Definition adviceCitations : string :=
  "Add more external links, formal citations, and quoted sources".

(** [if (cond) recommendations.push(msg)] *)
Definition pushIf (cond : bool) (msg : string) (recommendations : list string)
  : list string :=
  if cond then (recommendations ++ [msg])%list else recommendations.

Definition recommend (c : Criteria) : list string :=
  let r := [] in
  let r := pushIf (score (structure c) <? 7) adviceStructure r in
  let r := pushIf (score (author c) <? 5) adviceAuthor r in
  let r := pushIf (score (metadata c) <? 5) adviceMetadata r in
  let r := pushIf (score (keywords c) <? 5) adviceKeywords r in
  let r := pushIf (score (tone c) <? 4) adviceTone r in
  let r := pushIf (score (credibility c) <? 8) adviceCredibility r in
  let r := pushIf (score (readability c) <? 8) adviceReadability r in
  let r := pushIf (score (freshness c) <? 5) adviceFreshness r in
  let r := pushIf (score (comprehensiveness c) <? 5) adviceComprehensiveness r in
  pushIf (score (citations c) <? 5) adviceCitations r.

Definition evaluate (now : Clock) (d : Document) : Criteria :=
  {| structure := structureAnalysis d;
     author := authorAnalysis d;
     metadata := metadataAnalysis d;
     keywords := keywordsAnalysis d;
     tone := toneAnalysis d;
     credibility := credibilityAnalysis d;
     readability := readabilityAnalysis d;
     freshness := freshnessAnalysis now d;
     comprehensiveness := comprehensivenessAnalysis d;
     citations := citationsAnalysis d |}.

(** [Object.values(criteria).reduce((sum, c) => sum + c.score, 0)] *)
Definition sumScores (c : Criteria) : Z :=
  fold_left (fun sum criteria => sum + score criteria) (criteriaValues c) 0.

(** The body of the handler from "Initialize scoring" to the response:
    the analysis of one fetched page at one reading of the clock. *)
Definition analyze (now : Clock) (d : Document) : AnalysisResult :=
  let evaluated := evaluate now d in
  let total := sumScores evaluated in
  let maximum := 100 in
  {| url := doc_url d;
     totalScore := total;
     maxScore := maximum;
     percentage := (Num.ofZ total / Num.ofZ maximum * 100)%float;
     criteria := evaluated;
     recommendations := recommend evaluated;
     researchInsights := researchInsightsList |}.

(* ================================================================== *)
(** ** The route handler *)
(* ================================================================== *)

(** The body of the incoming request as [request.json()] sees it: no
    bytes at all, text that is not JSON, or JSON text with its value.  On
    the first two [request.json()] rejects. *)
Inductive RequestBody : Type :=
| EmptyBody
| MalformedBody (raw : jsstring)
| JsonBody (value : Json).

Definition request_json (request : RequestBody) : option Json :=
  match request with
  | JsonBody value => Some value
  | EmptyBody | MalformedBody _ => None
  end.

(** [NextResponse.json(analysis)] or
    [NextResponse.json({ error }, { status })]. *)
Inductive Response : Type :=
| Analysis (analysis : AnalysisResult)
| Error (status : Z) (error : string).

(** What one call does: the response, and the URLs handed to
    [axios.get], in order. *)
Record Outcome : Type := {
  response : Response;
  fetched : list Json
}.

Context {net : Network}.

(** The outer [catch]. *)
Definition caught (requests : list Json) : Outcome :=
  {| response :=
       Error 500 "Failed to analyze the webpage. Please check the URL and try again.";
     fetched := requests |}.

Definition POST (now : Clock) (request : RequestBody) : Outcome :=
  match request_json request with
  | None => caught []
  | Some body =>
      match destructureUrl body with
      | None => caught []
      | Some None => {| response := Error 400 "URL is required"; fetched := [] |}
      | Some (Some url) =>
          if negb (truthy (Some url))
          then {| response := Error 400 "URL is required"; fetched := [] |}
          else if negb (URL_parses (ToString NumberToString url))
          then {| response := Error 400 "Invalid URL format"; fetched := [] |}
          else
            match axios_get url with
            | None => caught [url]
            | Some OtherData => caught [url]
            | Some (TextData data) =>
                {| response :=
                     Analysis (analyze now {| doc_url := url;
                                              doc_data := data;
                                              doc_dom := cheerio_load data |});
                   fetched := [url] |}
            end
      end
  end.

End Engine.

(* ================================================================== *)
(** ** Pages built by hand *)
(* ================================================================== *)

(** A handle on which every query comes back empty. *)
Definition emptyDom : Cheerio :=
  {| sel_length := fun _ => 0%nat;
     sel_text := fun _ => [];
     sel_attr := fun _ _ => None;
     sel_each_attr := fun _ _ => [] |}.

(** The same handle with the text of one selector replaced. *)
Definition withText (selector : jsstring) (content : jsstring) (dom : Cheerio) : Cheerio :=
  {| sel_length := sel_length dom;
     sel_text := fun sel => if JS.eqb sel selector then content else sel_text dom sel;
     sel_attr := sel_attr dom;
     sel_each_attr := sel_each_attr dom |}.

(** The same handle with one attribute of one selector replaced. *)
Definition withAttr (selector name : jsstring) (value : option jsstring) (dom : Cheerio)
  : Cheerio :=
  {| sel_length := sel_length dom;
     sel_text := sel_text dom;
     sel_attr := fun sel n =>
       if JS.eqb sel selector && JS.eqb n name then value else sel_attr dom sel n;
     sel_each_attr := sel_each_attr dom |}.

(** The same handle with the anchors matched by [a[href^='http']]
    replaced by anchors carrying the given [href]s. *)
Definition withAnchors (hrefs : list jsstring) (dom : Cheerio) : Cheerio :=
  {| sel_length := sel_length dom;
     sel_text := sel_text dom;
     sel_attr := sel_attr dom;
     sel_each_attr := fun sel n =>
       if JS.eqb sel (lit "a[href^='http']") && JS.eqb n (lit "href")
       then map Some hrefs
       else sel_each_attr dom sel n |}.

(** A document in which the [content] attribute of
    [meta[name="description"]] is replaced. *)
Definition withDescription (content : option jsstring) (d : Document) : Document :=
  {| doc_url := doc_url d;
     doc_data := doc_data d;
     doc_dom := withAttr (quoted "meta[name=" "description" "]") (lit "content") content
                  (doc_dom d) |}.

(** A runtime for the examples: lowercasing of ASCII pages, a date parser
    that knows one ISO date and answers NaN to everything else, and a
    number printer that is never reached because every example [url] is a
    string. *)
Definition exampleRuntime : Runtime :=
  {| toLowerCase := asciiLower;
     dateGetTime := fun s =>
       if JS.eqb s (lit "2024-01-01T00:00:00.000Z") then 1704067200000%float else nan;
     NumberToString := fun _ => lit "NaN" |}.

(** A network on which every URL starting with [http] parses and every
    fetch answers an empty page. *)
Definition exampleNetwork : Network :=
  {| URL_parses := fun s => startsWith s (lit "http");
     axios_get := fun _ => Some (TextData []);
     cheerio_load := fun _ => emptyDom |}.

(** 15 January 2024 and 1 January 2026, 00:00 UTC. *)
Definition january2024 : Clock :=
  {| getTime := 1705276800000%float; getFullYear := 2024 |}.
Definition january2026 : Clock :=
  {| getTime := 1767225600000%float; getFullYear := 2026 |}.

(** The markup of a page with the given body, and of one anchor. *)
Definition pageMarkup (body : jsstring) : jsstring :=
  lit "<html><head></head><body>" ++ body ++ lit "</body></html>".

Definition anchorMarkup (href : jsstring) : jsstring :=
  lit "<a href='" ++ href ++ lit "'>more</a>".

(** The page whose body holds one anchor, with the text [more], for each
    of the given addresses. *)
Definition linkPage (address : string) (hrefs : list jsstring) : Document :=
  {| doc_url := JString (lit address);
     doc_data := pageMarkup (List.concat (map anchorMarkup hrefs));
     doc_dom := withText (lit "body") (List.concat (map (fun _ => lit "more") hrefs))
                  (withAnchors hrefs emptyDom) |}.

(** An empty response. *)
Definition emptyPage : Document :=
  {| doc_url := JString (lit "https://example.com/"); doc_data := []; doc_dom := emptyDom |}.

(** A page with no text that carries a structured date of 1 January
    2024. *)
Definition datedPage : Document :=
  {| doc_url := JString (lit "https://example.com/");
     doc_data := pageMarkup (lit "<time datetime='2024-01-01T00:00:00.000Z'></time>");
     doc_dom := withAttr (lit "time") (lit "datetime")
                  (Some (lit "2024-01-01T00:00:00.000Z")) emptyDom |}.

(** A page with no text whose structured date is not a date. *)
Definition misdatedPage : Document :=
  {| doc_url := JString (lit "https://example.com/");
     doc_data := pageMarkup (lit "<time datetime='last week'></time>");
     doc_dom := withAttr (lit "time") (lit "datetime") (Some (lit "last week")) emptyDom |}.

(** A page without a structured date whose text names the year 2026. *)
Definition yearPage : Document :=
  {| doc_url := JString (lit "https://example.com/");
     doc_data := pageMarkup (lit "Copyright 2026");
     doc_dom := withText (lit "body") (lit "Copyright 2026") emptyDom |}.

(** A page with no text whose head holds a meta description of [n]
    letters [a]. *)
Definition describedPage (n : nat) : Document :=
  {| doc_url := JString (lit "https://example.com/");
     doc_data := lit "<html><head><meta name='description' content='"
                 ++ repeat 97%N n ++ lit "'></head><body></body></html>";
     doc_dom := withAttr (quoted "meta[name=" "description" "]") (lit "content")
                  (Some (repeat 97%N n)) emptyDom |}.

(** The page [https://example.com/blog/post] with five links, all to
    another page of the same host. *)
Definition sameHostPage : Document :=
  linkPage "https://example.com/blog/post" (repeat (lit "https://example.com/about") 5).

(** The same page with six links, all to another host, each through a
    share address that carries the page's own address. *)
Definition sharePage : Document :=
  linkPage "https://example.com/blog/post"
    (repeat (lit "https://share.example.org/?u=https://example.com/blog/post") 6).

(** The same page with six links to a page of another host. *)
Definition crossHostPage : Document :=
  linkPage "https://example.com/blog/post" (repeat (lit "https://other.example.org/paper") 6).

(* ================================================================== *)
(** ** Vocabulary of the statements *)
(* ================================================================== *)

(** A criterion has the fixed maximum [m] and a score within it. *)
Definition withinMax (m : Z) (c : CriteriaScore) : Prop :=
  max c = m /\ (0 <= score c <= max c)%Z.

(** The host of an absolute URL: what stands between the first [//] and
    the next [/], [?] or [#].  The handler has no such function; this one
    and [crossHostLinks] follow the words of the specification, to be
    compared with [externalLinks]. *)
Fixpoint afterSlashes (u : jsstring) : jsstring :=
  match u with
  | [] => []
  | c :: t =>
      match t with
      | c' :: rest => if (N.eqb c 47 && N.eqb c' 47)%N then rest else afterSlashes t
      | [] => []
      end
  end.

Fixpoint untilDelimiter (u : jsstring) : jsstring :=
  match u with
  | [] => []
  | c :: t => if (N.eqb c 47 || N.eqb c 63 || N.eqb c 35)%N then [] else c :: untilDelimiter t
  end.

Definition hostOf (u : jsstring) : jsstring := untilDelimiter (afterSlashes u).

(** The outbound links of the page whose host differs from the host of
    the analyzed URL. *)
Definition crossHostLinks (analyzed : jsstring) (d : Document) : nat :=
  List.length
    (filter (fun a => negb (JS.eqb (hostOf (orEmpty a)) (hostOf analyzed)))
       (sel_each_attr (doc_dom d) (lit "a[href^='http']") (lit "href"))).

Section Parts.

Context {rt : Runtime}.

Local Open Scope Z_scope.

(** The parts of the metadata evaluator, one per condition. *)
Definition titlePoints (d : Document) : Z :=
  if nonEmpty (title d) && (10 <? List.length (title d))%nat then 2 else 0.
Definition descriptionPoints (s : jsstring) : Z :=
  if nonEmpty s && (50 <? List.length s)%nat then 3 else 0.
Definition datePoints (d : Document) : Z :=
  if attrTruthy (publishDate d) then 2 else 0.
Definition schemaPoints (d : Document) : Z :=
  if includes (html d) (lit "schema.org") || includes (html d) (lit "application/ld+json")
  then 1 else 0.

End Parts.

(* ================================================================== *)
(** ** The page that calls the route *)
(* ================================================================== *)

(** The code units of a string literal of the source, read from its
    UTF-8 bytes.  A truncated sequence gives U+FFFD; a four-byte sequence
    gives a surrogate pair. *)
Fixpoint decodeUtf8 (bytes : list N) : jsstring :=
  match bytes with
  | [] => []
  | b0 :: rest =>
      if (b0 <? 128)%N then b0 :: decodeUtf8 rest
      else if (b0 <? 224)%N then
        match rest with
        | b1 :: rest' => ((b0 mod 32) * 64 + b1 mod 64)%N :: decodeUtf8 rest'
        | _ => [65533%N]
        end
      else if (b0 <? 240)%N then
        match rest with
        | b1 :: b2 :: rest' =>
            ((b0 mod 16) * 4096 + (b1 mod 64) * 64 + b2 mod 64)%N :: decodeUtf8 rest'
        | _ => [65533%N]
        end
      else
        match rest with
        | b1 :: b2 :: b3 :: rest' =>
            let point :=
              ((b0 mod 8) * 262144 + (b1 mod 64) * 4096 + (b2 mod 64) * 64 + b3 mod 64)%N in
            (55296 + (point - 65536) / 1024)%N :: (56320 + (point - 65536) mod 1024)%N
              :: decodeUtf8 rest'
        | _ => [65533%N]
        end
  end.

Definition utf16 (s : string) : jsstring := decodeUtf8 (lit s).

(** The state of the component [AIVisibilityChecker]. *)
Record PageState : Type := {
  page_url : jsstring;
  loading : bool;
  result : option AnalysisResult;
  error : string
}.

(** [analyzeUrl].  [server] is what [fetch("/api/analyze", ...)] comes
    back with for a request body: the response of the route, or [None]
    when the request fails.  The result is the state once the function
    has returned, with the request bodies it sent. *)
Definition analyzeUrl (server : RequestBody -> option Response) (st : PageState)
  : PageState * list RequestBody :=
  if negb (nonEmpty (page_url st)) then (st, [])
  else
    let body := JsonBody (JObject [(lit "url", JString (page_url st))]) in
    match server body with
    | Some (Analysis data) =>
        ({| page_url := page_url st; loading := false; result := Some data;
            error := "" |}, [body])
    | Some (Error _ _) | None =>
        ({| page_url := page_url st; loading := false; result := None;
            error := "Failed to analyze the URL. Please check the URL and try again." |},
         [body])
    end.

Definition getScoreColor (percentage : float) : string :=
  if Num.geb percentage 80 then "text-green-600"
  else if Num.geb percentage 60 then "text-yellow-600"
  else "text-red-600".

Definition getScoreBadgeVariant (percentage : float) : string :=
  if Num.geb percentage 80 then "default"
  else if Num.geb percentage 60 then "secondary"
  else "destructive".

(** The lines under the overall progress bar: each [{cond && "..."}]
    shows its text when [cond] holds. *)
Definition scoreMessages (percentage : float) : list string :=
  (if Num.geb percentage 80
   then ["Excellent! This content is highly likely to be cited by AI tools."%string]
   else [])
  ++ (if Num.geb percentage 60 && (percentage <? 80)%float
      then ["Good potential with room for improvement."%string]
      else [])
  ++ (if (percentage <? 60)%float
      then ["Needs optimization to improve AI citation likelihood."%string]
      else []).

(** [(data.score / data.max) * 100] of one criterion card. *)
Definition criterionPercentage (data : CriteriaScore) : float :=
  (Num.ofZ (score data) / Num.ofZ (max data) * 100)%float.

(** [detail.startsWith("âœ“")]: whether a finding gets the check icon. *)
Definition findingPassed (detail : string) : bool :=
  startsWith (utf16 detail) (utf16 "âœ“").

(** [detail.substring(2)]: the text shown beside the icon. *)
Definition findingText (detail : string) : jsstring :=
  skipn 2 (utf16 detail).

(** The advisories in the order the route pushes them, each with its
    condition. *)
Definition advisoryTable (c : Criteria) : list (bool * string) :=
  [(score (structure c) <? 7, adviceStructure);
   (score (author c) <? 5, adviceAuthor);
   (score (metadata c) <? 5, adviceMetadata);
   (score (keywords c) <? 5, adviceKeywords);
   (score (tone c) <? 4, adviceTone);
   (score (credibility c) <? 8, adviceCredibility);
   (score (readability c) <? 8, adviceReadability);
   (score (freshness c) <? 5, adviceFreshness);
   (score (comprehensiveness c) <? 5, adviceComprehensiveness);
   (score (citations c) <? 5, adviceCitations)]%Z.

(** A page whose body is the given text. *)
Definition textPage (body : string) : Document :=
  {| doc_url := JString (lit "https://example.com/");
     doc_data := pageMarkup (lit body);
     doc_dom := withText (lit "body") (lit body) emptyDom |}.

(** A network on which every URL starting with [http] parses and every
    fetch fails. *)
Definition offlineNetwork : Network :=
  {| URL_parses := fun s => startsWith s (lit "http");
     axios_get := fun _ => None;
     cheerio_load := fun _ => emptyDom |}.

(** The page before anything was analyzed, with an address typed in. *)
Definition typedState (address : string) : PageState :=
  {| page_url := lit address; loading := false; result := None; error := "" |}.

(** A finding that starts with the check mark U+2713 or the cross U+2717
    and a space. *)
Definition wellMarked (detail : string) : bool :=
  match utf16 detail with
  | mark :: space :: _ => ((mark =? 10003) || (mark =? 10007))%N && (space =? 32)%N
  | _ => false
  end.

(* ================================================================== *)
(** ** Properties of the scoring engine *)
(* ================================================================== *)

Section Properties.

Context {rt : Runtime}.

Local Open Scope Z_scope.

(** Case analysis on every condition of an evaluator. *)
Ltac split_conditions :=
  repeat match goal with
         | |- context [if ?b then _ else _] => destruct b
         end.

(** Bounds of an evaluator that only awards and pushes. *)
Ltac evaluator_bounds :=
  unfold withinMax; cbv zeta; split_conditions;
  unfold award, push, initial; simpl; lia.

Lemma structure_withinMax : forall d, withinMax 10 (structureAnalysis d).
Proof. intros d. unfold structureAnalysis. evaluator_bounds. Qed.

Lemma author_withinMax : forall d, withinMax 8 (authorAnalysis d).
Proof. intros d. unfold authorAnalysis. evaluator_bounds. Qed.

Lemma metadata_withinMax : forall d, withinMax 8 (metadataAnalysis d).
Proof. intros d. unfold metadataAnalysis. evaluator_bounds. Qed.

Lemma keywords_withinMax : forall d, withinMax 8 (keywordsAnalysis d).
Proof. intros d. unfold keywordsAnalysis. evaluator_bounds. Qed.

Lemma tone_withinMax : forall d, withinMax 6 (toneAnalysis d).
Proof. intros d. unfold toneAnalysis. evaluator_bounds. Qed.

Lemma credibility_withinMax : forall d, withinMax 15 (credibilityAnalysis d).
Proof. intros d. unfold credibilityAnalysis. evaluator_bounds. Qed.

Lemma readability_withinMax : forall d, withinMax 15 (readabilityAnalysis d).
Proof. intros d. unfold readabilityAnalysis. evaluator_bounds. Qed.

Lemma comprehensiveness_withinMax : forall d, withinMax 10 (comprehensivenessAnalysis d).
Proof. intros d. unfold comprehensivenessAnalysis. evaluator_bounds. Qed.

Lemma citations_withinMax : forall d, withinMax 10 (citationsAnalysis d).
Proof. intros d. unfold citationsAnalysis. evaluator_bounds. Qed.

(** The step function yields one of 0, 2, ..., 10. *)
Lemma ageScore_range : forall m, 0 <= ageScore m <= 10.
Proof. intros m. unfold ageScore. split_conditions; lia. Qed.

(** [dateScore] before the recency signals is at most 10. *)
Lemma dateSignal_range : forall now d, 0 <= fst (dateSignal now d) <= 10.
Proof.
  intros now d. unfold dateSignal.
  destruct (publishDate d) as [published|]; [destruct (nonEmpty published)|];
    cbn [negb]; split_conditions; cbn [fst];
    try lia; apply ageScore_range.
Qed.

(** The freshness score is [dateScore], raised by 2 and capped at 10 when
    two recency signals are present. *)
Lemma freshness_score : forall now d,
  score (freshnessAnalysis now d) =
  if (2 <=? recencyCount d)%nat
  then Z.min 10 (fst (dateSignal now d) + 2)
  else fst (dateSignal now d).
Proof.
  intros now d. unfold freshnessAnalysis.
  destruct (dateSignal now d) as [dateScore dateFound]. cbn [fst].
  destruct (2 <=? recencyCount d)%nat; split_conditions; reflexivity.
Qed.

Lemma freshness_max : forall now d, max (freshnessAnalysis now d) = 10.
Proof.
  intros now d. unfold freshnessAnalysis.
  destruct (dateSignal now d) as [dateScore dateFound].
  destruct (2 <=? recencyCount d)%nat; split_conditions; reflexivity.
Qed.

Lemma freshness_withinMax : forall now d, withinMax 10 (freshnessAnalysis now d).
Proof.
  intros now d. unfold withinMax.
  rewrite freshness_max, freshness_score.
  pose proof (dateSignal_range now d).
  split; [reflexivity|]. destruct (2 <=? recencyCount d)%nat; lia.
Qed.

(** The fold of the handler adds the ten scores up. *)
Lemma sumScores_unfold : forall c,
  sumScores c =
  score (structure c) + score (author c) + score (metadata c) + score (keywords c)
  + score (tone c) + score (credibility c) + score (readability c)
  + score (freshness c) + score (comprehensiveness c) + score (citations c).
Proof. intros c. unfold sumScores, criteriaValues. cbn [fold_left]. lia. Qed.

(** C1. After any analysis each of the ten criteria carries its fixed
    maximum (structure 10, author 8, metadata 8, keywords 8, tone 6,
    credibility 15, readability 15, freshness 10, comprehensiveness 10,
    citations 10), whatever the page, and a score between 0 and that
    maximum. *)
Theorem criterion_scores_within_max : forall (now : Clock) (d : Document),
  let c := criteria (analyze now d) in
  withinMax 10 (structure c) /\ withinMax 8 (author c) /\ withinMax 8 (metadata c) /\
  withinMax 8 (keywords c) /\ withinMax 6 (tone c) /\ withinMax 15 (credibility c) /\
  withinMax 15 (readability c) /\ withinMax 10 (freshness c) /\
  withinMax 10 (comprehensiveness c) /\ withinMax 10 (citations c).
Proof.
  intros now d c. subst c. unfold analyze, evaluate.
  cbn [criteria structure author metadata keywords tone credibility readability
       freshness comprehensiveness citations].
  repeat split;
    first [ apply structure_withinMax | apply author_withinMax
          | apply metadata_withinMax | apply keywords_withinMax
          | apply tone_withinMax | apply credibility_withinMax
          | apply readability_withinMax | apply freshness_withinMax
          | apply comprehensiveness_withinMax | apply citations_withinMax ].
Qed.

Lemma ofZ_100 : Num.ofZ 100 = 100%float.
Proof. vm_compute. reflexivity. Qed.

(** C2. The total is the sum of the ten criterion scores, the maximum is
    100 and equals the sum of the ten maxima, the total lies between 0 and
    100, and the percentage is the double [(total / 100) * 100], with no
    rounding step after it. *)
Theorem total_is_sum_of_ten_scores : forall (now : Clock) (d : Document),
  let r := analyze now d in
  let c := criteria r in
  totalScore r =
    score (structure c) + score (author c) + score (metadata c) + score (keywords c)
    + score (tone c) + score (credibility c) + score (readability c)
    + score (freshness c) + score (comprehensiveness c) + score (citations c) /\
  maxScore r = 100 /\
  maxScore r =
    max (structure c) + max (author c) + max (metadata c) + max (keywords c)
    + max (tone c) + max (credibility c) + max (readability c)
    + max (freshness c) + max (comprehensiveness c) + max (citations c) /\
  0 <= totalScore r <= 100 /\
  percentage r = (Num.ofZ (totalScore r) / 100 * 100)%float.
Proof.
  intros now d r c. subst c r. unfold analyze.
  cbn [totalScore maxScore percentage criteria].
  rewrite sumScores_unfold, ofZ_100. unfold evaluate.
  cbn [structure author metadata keywords tone credibility readability
       freshness comprehensiveness citations].
  destruct (structure_withinMax d) as [M1 B1], (author_withinMax d) as [M2 B2],
    (metadata_withinMax d) as [M3 B3], (keywords_withinMax d) as [M4 B4],
    (tone_withinMax d) as [M5 B5], (credibility_withinMax d) as [M6 B6],
    (readability_withinMax d) as [M7 B7], (freshness_withinMax now d) as [M8 B8],
    (comprehensiveness_withinMax d) as [M9 B9], (citations_withinMax d) as [M10 B10].
  repeat split; try reflexivity; lia.
Qed.

(** What [pushIf] adds. *)
Lemma In_pushIf : forall (cond : bool) (msg : string) (l : list string) (x : string),
  In x (pushIf cond msg l) <-> In x l \/ (cond = true /\ x = msg).
Proof.
  intros cond msg l x. unfold pushIf. destruct cond.
  - rewrite in_app_iff. simpl. intuition congruence.
  - intuition congruence.
Qed.

(** The recommendations are the advisories of the criteria below their
    thresholds. *)
Lemma recommend_spec : forall (c : Criteria) (x : string),
  In x (recommend c) <->
  ((score (structure c) <? 7) = true /\ x = adviceStructure) \/
  ((score (author c) <? 5) = true /\ x = adviceAuthor) \/
  ((score (metadata c) <? 5) = true /\ x = adviceMetadata) \/
  ((score (keywords c) <? 5) = true /\ x = adviceKeywords) \/
  ((score (tone c) <? 4) = true /\ x = adviceTone) \/
  ((score (credibility c) <? 8) = true /\ x = adviceCredibility) \/
  ((score (readability c) <? 8) = true /\ x = adviceReadability) \/
  ((score (freshness c) <? 5) = true /\ x = adviceFreshness) \/
  ((score (comprehensiveness c) <? 5) = true /\ x = adviceComprehensiveness) \/
  ((score (citations c) <? 5) = true /\ x = adviceCitations).
Proof.
  intros c x. unfold recommend. cbv zeta.
  repeat rewrite In_pushIf. simpl. tauto.
Qed.

(** One advisory: it is listed exactly when its own condition holds,
    because the ten advisories are different strings. *)
Ltac advisory_iff :=
  rewrite recommend_spec, <- Z.ltb_lt;
  unfold adviceStructure, adviceAuthor, adviceMetadata, adviceKeywords, adviceTone,
    adviceCredibility, adviceReadability, adviceFreshness, adviceComprehensiveness,
    adviceCitations;
  split;
  [ intros H;
    repeat (destruct H as [[H E] | H]; [first [exact H | discriminate E] | ]);
    destruct H as [H E]; first [exact H | discriminate E]
  | intros H; tauto ].

(** C6. For each of the ten criteria the recommendations contain its
    advisory string if and only if its score is strictly below its
    threshold: structure 7, author 5, metadata 5, keywords 5, tone 4,
    credibility 8, readability 8, freshness 5, comprehensiveness 5,
    citations 5. *)
Theorem advisory_iff_below_threshold : forall (now : Clock) (d : Document),
  let r := analyze now d in
  let c := criteria r in
  (In adviceStructure (recommendations r) <-> score (structure c) < 7) /\
  (In adviceAuthor (recommendations r) <-> score (author c) < 5) /\
  (In adviceMetadata (recommendations r) <-> score (metadata c) < 5) /\
  (In adviceKeywords (recommendations r) <-> score (keywords c) < 5) /\
  (In adviceTone (recommendations r) <-> score (tone c) < 4) /\
  (In adviceCredibility (recommendations r) <-> score (credibility c) < 8) /\
  (In adviceReadability (recommendations r) <-> score (readability c) < 8) /\
  (In adviceFreshness (recommendations r) <-> score (freshness c) < 5) /\
  (In adviceComprehensiveness (recommendations r) <-> score (comprehensiveness c) < 5) /\
  (In adviceCitations (recommendations r) <-> score (citations c) < 5).
Proof.
  intros now d r c. subst c r. unfold analyze.
  cbn [recommendations criteria].
  generalize (evaluate now d). intros c.
  repeat match goal with |- _ /\ _ => split end; advisory_iff.
Qed.

(** The score of the freshness criterion before the recency signals:
    without a structured date it is decided by the two years alone. *)
Lemma dateSignal_undated : forall now d,
  attrTruthy (publishDate d) = false ->
  dateSignal now d =
  if includes (text d) (intToString (getFullYear now)) then (6, true)
  else if includes (text d) (intToString (getFullYear now - 1)) then (4, true)
  else (0, false).
Proof.
  intros now d H. unfold dateSignal. unfold attrTruthy in H.
  destruct (publishDate d) as [published|].
  - rewrite H. reflexivity.
  - reflexivity.
Qed.

(** The recency bonus is independent of where the date came from. *)
Lemma recency_bonus_any_page : forall now d,
  ((2 <= recencyCount d)%nat ->
     score (freshnessAnalysis now d) = Z.min 10 (fst (dateSignal now d) + 2)) /\
  ((recencyCount d < 2)%nat ->
     score (freshnessAnalysis now d) = fst (dateSignal now d)).
Proof.
  intros now d. rewrite freshness_score. split; intros E.
  - apply Nat.leb_le in E. rewrite E. reflexivity.
  - apply Nat.leb_gt in E. rewrite E. reflexivity.
Qed.

Lemma metadata_score : forall d,
  score (metadataAnalysis d) =
  titlePoints d + descriptionPoints (description d) + datePoints d + schemaPoints d.
Proof.
  intros d. unfold metadataAnalysis, titlePoints, descriptionPoints, datePoints,
    schemaPoints. cbv zeta.
  split_conditions; reflexivity.
Qed.

Lemma metadata_description_finding : forall d,
  In "✓ Good meta description"%string (details (metadataAnalysis d)) <->
  nonEmpty (description d) && (50 <? List.length (description d))%nat = true.
Proof.
  intros d. unfold metadataAnalysis. cbv zeta.
  split_conditions; unfold award, push, initial; simpl;
    intuition (try discriminate; try congruence).
Qed.

Lemma description_withDescription : forall content d,
  description (withDescription content d) = orEmpty content.
Proof. intros content d. reflexivity. Qed.

Lemma orEmpty_Some : forall s, orEmpty (Some s) = s.
Proof. intros [|c s]; reflexivity. Qed.

Lemma metadata_rest_withDescription : forall content d,
  titlePoints (withDescription content d) = titlePoints d /\
  datePoints (withDescription content d) = datePoints d /\
  schemaPoints (withDescription content d) = schemaPoints d.
Proof. intros content d. repeat split; reflexivity. Qed.

Lemma descriptionPoints_spec : forall s,
  descriptionPoints s = if (50 <? List.length s)%nat then 3 else 0.
Proof.
  intros s. unfold descriptionPoints. destruct s as [|c s]; reflexivity.
Qed.

(** C8. The meta description earns its 3 points exactly when it is
    present and longer than 50 code units.  With [attribute] the
    [content] attribute of [meta[name="description"]] as the page has it:
    the positive finding is reported exactly when the attribute is present
    and longer than 50; the metadata score is what the page scores with
    the attribute removed, plus 3 in that case and plus 0 otherwise; so a
    description of 51 code units earns the bonus and one of 50 does not. *)
Theorem description_bonus_above_50 : forall (d : Document),
  let attribute :=
    sel_attr (doc_dom d) (quoted "meta[name=" "description" "]") (lit "content") in
  let undescribed := withDescription None d in
  (In "✓ Good meta description"%string (details (metadataAnalysis d)) <->
     exists content, attribute = Some content /\ (50 < List.length content)%nat) /\
  score (metadataAnalysis d) =
    score (metadataAnalysis undescribed)
    + match attribute with
      | Some content => if (50 <? List.length content)%nat then 3 else 0
      | None => 0
      end /\
  ~ In "✓ Good meta description"%string (details (metadataAnalysis undescribed)) /\
  (forall content, attribute = Some content -> List.length content = 51%nat ->
     In "✓ Good meta description"%string (details (metadataAnalysis d)) /\
     score (metadataAnalysis d) = score (metadataAnalysis undescribed) + 3) /\
  (forall content, attribute = Some content -> List.length content = 50%nat ->
     ~ In "✓ Good meta description"%string (details (metadataAnalysis d)) /\
     score (metadataAnalysis d) = score (metadataAnalysis undescribed)).
Proof.
  intros d attribute undescribed.
  assert (Hdescription : description d = orEmpty attribute) by reflexivity.
  assert (Hfinding :
            In "✓ Good meta description"%string (details (metadataAnalysis d)) <->
            exists content, attribute = Some content /\ (50 < List.length content)%nat).
  { rewrite metadata_description_finding, Hdescription.
    destruct attribute as [content|].
    - rewrite orEmpty_Some. split.
      + intros H. apply andb_true_iff in H. exists content. split; [reflexivity|].
        apply Nat.ltb_lt. apply H.
      + intros (content' & E & H). inversion E; subst content'.
        apply andb_true_iff. split.
        * destruct content; [inversion H | reflexivity].
        * apply Nat.ltb_lt. exact H.
    - split; [discriminate|]. intros (content & E & _). discriminate E. }
  assert (Hscore :
            score (metadataAnalysis d) =
            score (metadataAnalysis undescribed)
            + match attribute with
              | Some content => if (50 <? List.length content)%nat then 3 else 0
              | None => 0
              end).
  { subst undescribed.
    rewrite !metadata_score, description_withDescription, Hdescription.
    destruct (metadata_rest_withDescription None d) as (T & D & S).
    rewrite T, D, S.
    change (orEmpty None) with (@nil N). change (descriptionPoints []) with 0.
    destruct attribute as [content|].
    - rewrite orEmpty_Some, descriptionPoints_spec. lia.
    - change (orEmpty None) with (@nil N). change (descriptionPoints []) with 0. lia. }
  assert (Hnone :
            ~ In "✓ Good meta description"%string (details (metadataAnalysis undescribed))).
  { subst undescribed. rewrite metadata_description_finding, description_withDescription.
    simpl. discriminate. }
  split; [exact Hfinding|]. split; [exact Hscore|]. split; [exact Hnone|]. split.
  - intros content E Hlen. split.
    + apply Hfinding. exists content. split; [exact E | lia].
    + rewrite Hscore, E, Hlen. reflexivity.
  - intros content E Hlen. split.
    + intros Hin. apply Hfinding in Hin. destruct Hin as (content' & E' & H).
      rewrite E in E'. inversion E'; subst content'. lia.
    + rewrite Hscore, E, Hlen. simpl. lia.
Qed.

(** *** NaN in the arithmetic of the handler *)

Lemma is_nan_Prim2SF : forall x, is_nan x = true -> Prim2SF x = S754_nan.
Proof. intros x H. unfold Prim2SF. rewrite H. reflexivity. Qed.

Lemma sub_nan_r : forall x y,
  Prim2SF y = S754_nan -> Prim2SF (x - y)%float = S754_nan.
Proof.
  intros x y H. rewrite sub_spec, H.
  destruct (Prim2SF x); reflexivity.
Qed.

Lemma div_nan_l : forall x y,
  Prim2SF x = S754_nan -> Prim2SF (x / y)%float = S754_nan.
Proof.
  intros x y H. rewrite div_spec, H.
  destruct (Prim2SF y); reflexivity.
Qed.

Lemma leb_nan_l : forall x y,
  Prim2SF x = S754_nan -> (x <=? y)%float = false.
Proof.
  intros x y H. rewrite leb_spec, H. reflexivity.
Qed.

(** Every comparison of the step function fails on NaN. *)
Lemma ageScore_nan : forall m, Prim2SF m = S754_nan -> ageScore m = 0.
Proof.
  intros m H. unfold ageScore. rewrite !(leb_nan_l m _ H). reflexivity.
Qed.

Lemma monthsAgo_nan : forall now published,
  is_nan (dateGetTime published) = true ->
  Prim2SF (monthsAgo now published) = S754_nan.
Proof.
  intros now published H. unfold monthsAgo.
  apply div_nan_l. apply sub_nan_r. apply is_nan_Prim2SF. exact H.
Qed.

(** C9. When a structured publish date is present but is not a date, the
    date counts as found with 0 points from the step function, whatever
    the text and the clock say: the year fallback is not consulted and the
    freshness score is the recency bonus alone, 2 or 0. *)
Theorem unparsable_date_scores_bonus_only :
  forall (now : Clock) (d : Document) (published : jsstring),
  publishDate d = Some published ->
  nonEmpty published = true ->
  is_nan (dateGetTime published) = true ->
  dateSignal now d = (0, true) /\
  score (freshnessAnalysis now d) = (if (2 <=? recencyCount d)%nat then 2 else 0) /\
  score (freshnessAnalysis now d) <= 2 /\
  In "✗ Content may be outdated"%string (details (freshnessAnalysis now d)) /\
  ~ In "✗ No clear publication date found"%string (details (freshnessAnalysis now d)).
Proof.
  intros now d published Hdate Hnonempty Hnan.
  assert (Hsignal : dateSignal now d = (0, true)).
  { unfold dateSignal. rewrite Hdate, Hnonempty.
    rewrite (ageScore_nan _ (monthsAgo_nan now published Hnan)). reflexivity. }
  split; [exact Hsignal|].
  rewrite freshness_score. unfold freshnessAnalysis. rewrite Hsignal. cbn [fst].
  destruct (2 <=? recencyCount d)%nat; simpl;
    repeat split; try lia; try (intuition discriminate).
Qed.


(** *** What the clock can change *)

Lemma freshness_same_signal : forall now1 now2 d,
  dateSignal now1 d = dateSignal now2 d ->
  freshnessAnalysis now1 d = freshnessAnalysis now2 d.
Proof. intros now1 now2 d H. unfold freshnessAnalysis. rewrite H. reflexivity. Qed.

Lemma analyze_same_freshness : forall now1 now2 d,
  freshnessAnalysis now1 d = freshnessAnalysis now2 d ->
  analyze now1 d = analyze now2 d.
Proof. intros now1 now2 d H. unfold analyze, evaluate. rewrite H. reflexivity. Qed.

Lemma dateSignal_dated : forall now1 now2 d,
  attrTruthy (publishDate d) = true ->
  getTime now1 = getTime now2 ->
  dateSignal now1 d = dateSignal now2 d.
Proof.
  intros now1 now2 d H E. unfold dateSignal, monthsAgo. unfold attrTruthy in H.
  destruct (publishDate d) as [published|]; [|discriminate].
  rewrite H, E. reflexivity.
Qed.

(** C4, as the handler has it.  Two analyses of one page at two readings
    of the clock agree on the nine criteria other than freshness, scores
    and findings alike; they agree on the whole result when the page has a
    structured date and the two readings have the same time, or when it
    has none and the two readings fall in the same calendar year. *)
Theorem clock_reaches_freshness_only : forall (now1 now2 : Clock) (d : Document),
  let c1 := criteria (analyze now1 d) in
  let c2 := criteria (analyze now2 d) in
  (structure c1 = structure c2 /\ author c1 = author c2 /\ metadata c1 = metadata c2 /\
   keywords c1 = keywords c2 /\ tone c1 = tone c2 /\ credibility c1 = credibility c2 /\
   readability c1 = readability c2 /\ comprehensiveness c1 = comprehensiveness c2 /\
   citations c1 = citations c2) /\
  (attrTruthy (publishDate d) = true -> getTime now1 = getTime now2 ->
   analyze now1 d = analyze now2 d) /\
  (attrTruthy (publishDate d) = false -> getFullYear now1 = getFullYear now2 ->
   analyze now1 d = analyze now2 d).
Proof.
  intros now1 now2 d c1 c2. subst c1 c2. split; [|split].
  - unfold analyze, evaluate.
    cbn [criteria structure author metadata keywords tone credibility readability
         comprehensiveness citations].
    repeat split.
  - intros H E. apply analyze_same_freshness, freshness_same_signal.
    apply dateSignal_dated; assumption.
  - intros H E. apply analyze_same_freshness, freshness_same_signal.
    rewrite !(dateSignal_undated _ d H), E. reflexivity.
Qed.

(** *** The link part of the citations evaluator *)

(** With five or more counted links, fewer than two formal-citation
    phrases and no double quote in the text, the citations score is the
    link bonus alone. *)
Lemma citations_link_bonus_alone : forall d,
  (5 <= externalLinks d)%nat ->
  (formalCitationCount d < 2)%nat ->
  countChar dquote (text d) = 0%nat ->
  score (citationsAnalysis d) = 4 /\ max (citationsAnalysis d) = 10.
Proof.
  intros d Hlinks Hformal Hquotes. unfold citationsAnalysis, quoteCount.
  apply Nat.leb_le in Hlinks. apply Nat.leb_gt in Hformal.
  rewrite Hlinks, Hformal, Hquotes. vm_compute. split; reflexivity.
Qed.

End Properties.

(* ================================================================== *)
(** ** Properties of the route handler *)
(* ================================================================== *)

Section Handler.

Context {rt : Runtime} {net : Network}.

(** A body with a missing or false [url], or with a [url] that does not
    parse, is answered 400 and nothing is fetched. *)
Lemma invalid_url_answered_400 : forall (now : Clock) (body : Json) (url : JsValue),
  destructureUrl body = Some url ->
  truthy url = false \/
  (exists u, url = Some u /\ URL_parses (ToString NumberToString u) = false) ->
  exists error,
    POST now (JsonBody body) = {| response := Error 400 error; fetched := [] |}.
Proof.
  intros now body url Hurl Hbad. unfold POST. cbn [request_json]. rewrite Hurl.
  destruct url as [u|].
  - destruct (truthy (Some u)) eqn:Ht; cbn [negb].
    + destruct Hbad as [Hf | (u' & Eu & Hp)]; [discriminate|].
      inversion Eu; subst u'. rewrite Hp. cbn [negb]. eexists. reflexivity.
    + eexists. reflexivity.
  - eexists. reflexivity.
Qed.

(** Whatever is fetched is a [url] that passed both checks. *)
Lemma fetch_only_after_validation : forall (now : Clock) (request : RequestBody) (u : Json),
  In u (fetched (POST now request)) ->
  exists body,
    request = JsonBody body /\
    destructureUrl body = Some (Some u) /\
    truthy (Some u) = true /\
    URL_parses (ToString NumberToString u) = true.
Proof.
  intros now request u. unfold POST.
  destruct request as [|raw|body]; cbn [request_json caught fetched In]; try tauto.
  destruct (destructureUrl body) as [[url|]|] eqn:Hurl; cbn [caught fetched In];
    try tauto.
  destruct (truthy (Some url)) eqn:Ht; cbn [negb fetched In]; try tauto.
  destruct (URL_parses (ToString NumberToString url)) eqn:Hp; cbn [negb fetched In];
    try tauto.
  intros Hin.
  assert (E : u = url).
  { destruct (axios_get url) as [[data|]|]; cbn [caught fetched In] in Hin;
      destruct Hin as [E|[]]; symmetry; exact E. }
  subst u. exists body. repeat split; assumption.
Qed.

(** C5, at the empty body.  [request.json()] rejects inside the outer
    [try], so the handler answers through its [catch]: status 500 with the
    generic message, and nothing is fetched.  A body that is not JSON and
    the JSON body [null] end in the same place. *)
Theorem empty_body_answered_500 : forall (now : Clock),
  let failure :=
    {| response :=
         Error 500 "Failed to analyze the webpage. Please check the URL and try again.";
       fetched := [] |} in
  POST now EmptyBody = failure /\
  (forall raw, POST now (MalformedBody raw) = failure) /\
  POST now (JsonBody JNull) = failure.
Proof. intros now failure. subst failure. repeat split. Qed.

End Handler.

(* ================================================================== *)
(** ** Concrete runs *)
(* ================================================================== *)

Local Open Scope Z_scope.

(** C4, as stated, fails: the page dated 1 January 2024 scores 10 on
    freshness when analyzed on 15 January 2024 and 0 when the same page is
    analyzed on 1 January 2026. *)
Lemma same_page_two_dates_two_scores :
  score (freshness (criteria (analyze (rt := exampleRuntime) january2024 datedPage))) = 10 /\
  score (freshness (criteria (analyze (rt := exampleRuntime) january2026 datedPage))) = 0.
Proof. split; vm_compute; reflexivity. Qed.

(** A page whose [datetime] attribute reads "last week". *)
Lemma unparsable_date_witness :
  publishDate misdatedPage = Some (lit "last week") /\
  nonEmpty (lit "last week") = true /\
  is_nan (dateGetTime (Runtime := exampleRuntime) (lit "last week")) = true /\
  dateSignal (rt := exampleRuntime) january2026 misdatedPage = (0, true) /\
  score (freshnessAnalysis (rt := exampleRuntime) january2026 misdatedPage) = 0.
Proof.
  split; [reflexivity|]. split; [reflexivity|]. split; [reflexivity|].
  destruct (unparsable_date_scores_bonus_only (rt := exampleRuntime) january2026
              misdatedPage (lit "last week") eq_refl eq_refl eq_refl) as (H1 & H2 & _).
  split; [exact H1 | rewrite H2; reflexivity].
Defined.


(** C3, at two pages.  On [https://example.com/blog/post] five links to
    another page of the same host are all counted and earn the 4 points,
    although no link leaves the host; and six links to another host are
    not counted when their address carries the page's own, so that they
    earn nothing. *)
Theorem same_host_links_counted_as_external :
  (crossHostLinks (lit "https://example.com/blog/post") sameHostPage = 0%nat /\
   externalLinks (rt := exampleRuntime) sameHostPage = 5%nat /\
   citationsAnalysis (rt := exampleRuntime) sameHostPage =
     {| score := 4; max := 10;
        details := ["✓ Multiple external links (5+)"%string;
                    "✗ No formal citations"%string;
                    "✗ No quoted sources"%string] |}) /\
  (crossHostLinks (lit "https://example.com/blog/post") sharePage = 6%nat /\
   externalLinks (rt := exampleRuntime) sharePage = 0%nat /\
   citationsAnalysis (rt := exampleRuntime) sharePage =
     {| score := 0; max := 10;
        details := ["✗ Few or no external links"%string;
                    "✗ No formal citations"%string;
                    "✗ No quoted sources"%string] |}).
Proof. repeat split; vm_compute; reflexivity. Qed.

(** Where the two counts agree the example of the specification holds:
    six links to another host, no formal citation, no quote, score 4. *)
Lemma six_cross_host_links_score_4 :
  crossHostLinks (lit "https://example.com/blog/post") crossHostPage = 6%nat /\
  externalLinks (rt := exampleRuntime) crossHostPage = 6%nat /\
  score (citationsAnalysis (rt := exampleRuntime) crossHostPage) = 4 /\
  max (citationsAnalysis (rt := exampleRuntime) crossHostPage) = 10.
Proof. repeat split; vm_compute; reflexivity. Qed.

(** The percentage is a double: at the total 7 it is not 7. *)
Lemma percentage_of_7 :
  (Num.ofZ 7 / 100 * 100)%float = 7.0000000000000009%float.
Proof. vm_compute. reflexivity. Qed.

(* ================================================================== *)
(** ** Further properties of the helpers *)
(* ================================================================== *)

(** *** Substrings *)

Lemma startsWith_spec : forall pat s,
  startsWith s pat = true <-> exists rest, s = pat ++ rest.
Proof.
  induction pat as [|p pat IH]; intros s.
  - destruct s; simpl; split; intros; eauto.
  - destruct s as [|c s]; simpl.
    + split; [discriminate | intros [r E]; discriminate].
    + rewrite andb_true_iff, N.eqb_eq, IH. split.
      * intros [E [r Er]]. subst. eauto.
      * intros [r E]. inversion E; subst. eauto.
Qed.

Lemma includes_spec : forall s pat,
  includes s pat = true <-> exists before rest, s = before ++ pat ++ rest.
Proof.
  induction s as [|c s IH]; intros pat.
  - cbn [includes]. rewrite orb_false_r, startsWith_spec. split.
    + intros [r E]. exists [], r. exact E.
    + intros (b & r & E). destruct b; [eauto|discriminate].
  - cbn [includes]. rewrite orb_true_iff, startsWith_spec, IH. split.
    + intros [[r E] | (b & r & E)].
      * exists [], r. exact E.
      * exists (c :: b), r. rewrite E. reflexivity.
    + intros (b & r & E). destruct b as [|c' b].
      * left. eauto.
      * right. inversion E; subst. eauto.
Qed.

Lemma includes_trans : forall s p q,
  includes s p = true -> includes p q = true -> includes s q = true.
Proof.
  intros s p q Hs Hp. apply includes_spec in Hs. apply includes_spec in Hp.
  destruct Hs as (b & r & E). destruct Hp as (b' & r' & E').
  apply includes_spec. exists (b ++ b'), (r' ++ r). subst.
  repeat rewrite <- app_assoc. reflexivity.
Qed.

(** *** Words and sentences *)

Lemma forallb_rev : forall (f : N -> bool) (l : jsstring),
  forallb f (rev l) = forallb f l.
Proof.
  intros f l. destruct (forallb f l) eqn:E.
  - apply forallb_forall. intros x Hx. apply in_rev in Hx.
    revert x Hx. apply forallb_forall. exact E.
  - destruct (forallb f (rev l)) eqn:E'; [|reflexivity].
    rewrite <- E. symmetry. apply forallb_forall. intros x Hx.
    apply in_rev in Hx. revert x Hx. apply forallb_forall. exact E'.
Qed.

(** The pieces of a split hold no separator. *)
Lemma splitRuns_pieces : forall (sep : N -> bool) (s cur : jsstring) (inRun : bool),
  forallb (fun c => negb (sep c)) cur = true ->
  Forall (fun piece => forallb (fun c => negb (sep c)) piece = true)
    (splitRuns sep s cur inRun).
Proof.
  intros sep s. induction s as [|c s IH]; intros cur inRun Hcur.
  - cbn [splitRuns]. constructor; [|constructor]. rewrite forallb_rev. exact Hcur.
  - cbn [splitRuns]. destruct (sep c) eqn:Ec.
    + destruct inRun.
      * apply IH. reflexivity.
      * constructor; [rewrite forallb_rev; exact Hcur | apply IH; reflexivity].
    + apply IH. cbn [forallb]. rewrite Ec, Hcur. reflexivity.
Qed.

(** When no piece of a split is left after the empty ones are dropped,
    the string held separators only. *)
Lemma splitRuns_no_piece : forall (sep : N -> bool) (s cur : jsstring) (inRun : bool),
  filter (fun piece => 0 <? List.length piece)%nat (splitRuns sep s cur inRun) = [] ->
  (inRun = true -> cur = []) ->
  cur = [] /\ forallb sep s = true.
Proof.
  intros sep s. induction s as [|c s IH]; intros cur inRun Hnone Hrun.
  - cbn [splitRuns filter] in Hnone. destruct (rev cur) as [|x r] eqn:Er.
    + split; [|reflexivity]. destruct cur as [|y cur]; [reflexivity|].
      cbn [rev] in Er. destruct (rev cur); discriminate.
    + cbn in Hnone. discriminate.
  - cbn [splitRuns] in Hnone. cbn [forallb]. destruct (sep c) eqn:Ec.
    + destruct inRun.
      * destruct (IH [] true Hnone (fun _ => eq_refl)) as [_ H].
        split; [apply Hrun; reflexivity | exact H].
      * cbn [filter] in Hnone. destruct (rev cur) as [|x r] eqn:Er.
        -- cbn in Hnone. destruct (IH [] true Hnone (fun _ => eq_refl)) as [_ H].
           split; [|exact H]. destruct cur as [|y cur]; [reflexivity|].
           cbn [rev] in Er. destruct (rev cur); discriminate.
        -- cbn in Hnone. discriminate.
    + destruct (IH (c :: cur) false Hnone) as [H _]; [discriminate|discriminate].
Qed.

Lemma splitRuns_all_separators : forall (sep : N -> bool) (s : jsstring) (inRun : bool),
  forallb sep s = true ->
  filter (fun piece => 0 <? List.length piece)%nat (splitRuns sep s [] inRun) = [].
Proof.
  intros sep s. induction s as [|c s IH]; intros inRun H.
  - reflexivity.
  - cbn [forallb] in H. apply andb_true_iff in H. destruct H as [Ec Hs].
    cbn [splitRuns]. rewrite Ec. destruct inRun.
    + apply IH. exact Hs.
    + cbn [filter rev List.length Nat.ltb Nat.leb]. apply IH. exact Hs.
Qed.

Lemma dropWhile_nil : forall (f : N -> bool) (s : jsstring),
  dropWhile f s = [] <-> forallb f s = true.
Proof.
  intros f s. induction s as [|c s IH]; cbn [dropWhile forallb].
  - tauto.
  - destruct (f c); cbn [andb]; [exact IH|]. split; discriminate.
Qed.

Lemma dropWhile_keeps : forall (f : N -> bool) (s : jsstring) (c : N),
  In c s -> f c = false -> In c (dropWhile f s).
Proof.
  intros f s c. induction s as [|x s IH]; intros Hin Hc; [destruct Hin|].
  cbn [dropWhile]. destruct (f x) eqn:Ex; [|exact Hin].
  destruct Hin as [E|Hin]; [subst; congruence|]. apply IH; assumption.
Qed.

(** [trim] leaves nothing exactly when the string is all white space. *)
Lemma trim_all_whitespace : forall s,
  forallb isWhiteSpace (trim s) = true <-> forallb isWhiteSpace s = true.
Proof.
  intros s. unfold trim. rewrite forallb_rev. split.
  - intros H. destruct (forallb isWhiteSpace s) eqn:E; [reflexivity|].
    assert (Hex : exists c, In c s /\ isWhiteSpace c = false).
    { clear H. induction s as [|x s IH]; [discriminate|].
      cbn [forallb] in E. destruct (isWhiteSpace x) eqn:Ex.
      - destruct (IH E) as (c & Hc & Hw). exists c. split; [right|]; assumption.
      - exists x. split; [left; reflexivity | exact Ex]. }
    destruct Hex as (c & Hin & Hw).
    pose proof (dropWhile_keeps isWhiteSpace s c Hin Hw) as H1.
    apply in_rev in H1.
    pose proof (dropWhile_keeps isWhiteSpace _ c H1 Hw) as H2.
    rewrite forallb_forall in H. rewrite (H c H2) in Hw. discriminate.
  - intros H. apply dropWhile_nil in H. rewrite H. reflexivity.
Qed.

(** A piece of a split is made of code units of the string. *)
Lemma splitRuns_chars : forall (sep : N -> bool) (s cur : jsstring) (inRun : bool)
    (piece : jsstring) (c : N),
  In piece (splitRuns sep s cur inRun) -> In c piece -> In c s \/ In c cur.
Proof.
  intros sep s. induction s as [|x s IH]; intros cur inRun piece c Hp Hc.
  - cbn [splitRuns] in Hp. destruct Hp as [E|[]]. subst piece.
    right. apply in_rev. exact Hc.
  - cbn [splitRuns] in Hp. destruct (sep x).
    + destruct inRun.
      * destruct (IH [] true piece c Hp Hc) as [H|[]]. left. right. exact H.
      * destruct Hp as [E|Hp].
        -- subst piece. right. apply in_rev. exact Hc.
        -- destruct (IH [] true piece c Hp Hc) as [H|[]]. left. right. exact H.
    + destruct (IH (x :: cur) false piece c Hp Hc) as [H|[E|H]].
      * left. right. exact H.
      * left. left. exact E.
      * right. exact H.
Qed.

Lemma trim_whitespace_nil : forall s,
  forallb isWhiteSpace s = true -> trim s = [].
Proof.
  intros s H. unfold trim. apply dropWhile_nil in H. rewrite H. reflexivity.
Qed.

(** X1. Every word that [countWords] counts is non-empty and holds no
    white-space code unit. *)
Theorem words_nonempty_without_whitespace : forall (text : jsstring),
  Forall (fun word => word <> [] /\ forallb (fun c => negb (isWhiteSpace c)) word = true)
    (wordsOf text).
Proof.
  intros text. unfold wordsOf, split. apply Forall_forall. intros word Hin.
  apply filter_In in Hin. destruct Hin as [Hin Hlen]. split.
  - intros E. subst word. discriminate.
  - pose proof (splitRuns_pieces isWhiteSpace (trim text) [] false eq_refl) as H.
    rewrite Forall_forall in H. apply H. exact Hin.
Qed.

(** X2. [countWords] is 0 exactly on the texts made of white space only
    (the empty text among them); on those there is no sentence either and
    [calculateReadability] returns 0. *)
Theorem countWords_zero_iff_whitespace : forall (text : jsstring),
  (countWords text = 0%nat <-> forallb isWhiteSpace text = true) /\
  (forallb isWhiteSpace text = true ->
   sentencesOf text = [] /\ calculateReadability text = 0%float).
Proof.
  intros text.
  assert (Hzero : countWords text = 0%nat <-> forallb isWhiteSpace text = true).
  { unfold countWords, wordsOf, split. rewrite <- trim_all_whitespace. split.
    - intros H. apply length_zero_iff_nil in H.
      apply (splitRuns_no_piece isWhiteSpace (trim text) [] false H). discriminate.
    - intros H. rewrite splitRuns_all_separators; [reflexivity | exact H]. }
  split; [exact Hzero|]. intros Hws.
  assert (Hwords : wordsOf text = []).
  { apply length_zero_iff_nil. apply Hzero. exact Hws. }
  unfold calculateReadability. rewrite Hwords. cbn [List.length Nat.eqb].
  rewrite orb_true_r. split; [|reflexivity].
  unfold sentencesOf, split.
  destruct (filter _ _) as [|piece rest] eqn:E; [reflexivity|].
  assert (Hin : In piece (piece :: rest)) by (left; reflexivity).
  rewrite <- E in Hin. apply filter_In in Hin. destruct Hin as [Hin Hlen].
  rewrite trim_whitespace_nil in Hlen; [discriminate|].
  apply forallb_forall. intros c Hc.
  destruct (splitRuns_chars _ _ _ _ _ _ Hin Hc) as [H|[]].
  rewrite forallb_forall in Hws. apply Hws. exact H.
Qed.

(** *** The clamp of [calculateReadability] *)

Lemma SFcompare_antisym : forall x y,
  SFcompare y x = option_map CompOpp (SFcompare x y).
Proof.
  intros x y.
  destruct x as [sx|sx| |sx mx ex], y as [sy|sy| |sy my ey]; cbn [SFcompare option_map];
    try reflexivity;
    try (destruct sx; reflexivity); try (destruct sy; reflexivity);
    try (destruct sx, sy; reflexivity).
  destruct sx, sy; try reflexivity;
    rewrite (Z.compare_antisym ex ey); destruct (ex ?= ey)%Z; cbn [CompOpp];
      try reflexivity;
      rewrite (Pos.compare_cont_antisym mx my Eq); cbn [CompOpp];
      try rewrite CompOpp_involutive; reflexivity.
Qed.

(** On numbers, [a < b] false and neither NaN give [b <= a]. *)
Lemma float_not_ltb_leb : forall a b,
  is_nan a = false -> is_nan b = false -> (a <? b)%float = false -> (b <=? a)%float = true.
Proof.
  intros a b Ha Hb. rewrite ltb_spec, leb_spec. unfold SFltb, SFleb.
  rewrite (SFcompare_antisym (Prim2SF a) (Prim2SF b)).
  assert (Na : Prim2SF a <> S754_nan).
  { unfold Prim2SF. rewrite Ha. destruct (is_zero a); [discriminate|].
    destruct (is_infinity a); [discriminate|].
    destruct (Z.frexp a). destruct (shr_fexp _ _ _ _ _). destruct (shr_m s);
      discriminate. }
  assert (Nb : Prim2SF b <> S754_nan).
  { unfold Prim2SF. rewrite Hb. destruct (is_zero b); [discriminate|].
    destruct (is_infinity b); [discriminate|].
    destruct (Z.frexp b). destruct (shr_fexp _ _ _ _ _). destruct (shr_m s);
      discriminate. }
  destruct (SFcompare (Prim2SF a) (Prim2SF b)) as [[| |]|] eqn:E; cbn [option_map CompOpp];
    try reflexivity; try discriminate.
  destruct (Prim2SF a), (Prim2SF b); cbn in E; congruence.
Qed.

Lemma float_ltb_leb : forall a b, (a <? b)%float = true -> (a <=? b)%float = true.
Proof.
  intros a b. rewrite ltb_spec, leb_spec. unfold SFltb, SFleb.
  destruct (SFcompare (Prim2SF a) (Prim2SF b)) as [[| |]|]; congruence.
Qed.

(** [Math.min(100, Math.max(0, x))] is NaN on NaN and within [0, 100]
    otherwise. *)
Lemma clamp_range : forall x,
  let r := Num.Math_min 100 (Num.Math_max 0 x) in
  if is_nan x then is_nan r = true
  else ((0 <=? r) && (r <=? 100))%float = true.
Proof.
  intros x r. subst r. unfold Num.Math_max.
  change (is_nan 0) with false. change (get_sign 0) with false. cbn [orb].
  destruct (is_nan x) eqn:Hx.
  - reflexivity.
  - set (m := if (0 <? x)%float then x else if (x <? 0)%float then 0%float else 0%float).
    assert (Hm : is_nan m = false /\ (0 <=? m)%float = true).
    { subst m. destruct (0 <? x)%float eqn:E.
      - split; [exact Hx | apply float_ltb_leb; exact E].
      - destruct (x <? 0)%float; split; reflexivity. }
    destruct Hm as [Nm Pm]. unfold Num.Math_min.
    change (is_nan 100) with false. change (get_sign 100) with false. rewrite Nm. cbn [orb].
    destruct (100 <? m)%float eqn:E1.
    + reflexivity.
    + assert (Hle : (m <=? 100)%float = true) by (apply float_not_ltb_leb; auto).
      destruct (m <? 100)%float; rewrite Pm, Hle; reflexivity.
Qed.

(** X3. [calculateReadability] never leaves the scale 0 to 100: its
    result is between 0 and 100, unless the arithmetic on the word and
    sentence counts produced NaN, which the clamp hands on. *)
Theorem calculateReadability_within_scale : forall (text : jsstring),
  is_nan (calculateReadability text) = true \/
  ((0 <=? calculateReadability text) && (calculateReadability text <=? 100))%float = true.
Proof.
  intros text. unfold calculateReadability.
  destruct (_ || _); [right; reflexivity|]. cbv zeta.
  match goal with
  | |- context [Num.Math_min 100 (Num.Math_max 0 ?x)] =>
      pose proof (clamp_range x) as H; cbv zeta in H; destruct (is_nan x)
  end; [left | right]; exact H.
Qed.

(* ================================================================== *)
(** ** Further properties of the scoring engine *)
(* ================================================================== *)

Section EngineFacts.

Context {rt : Runtime}.

Local Open Scope Z_scope.

Ltac case_conditions :=
  repeat match goal with
         | |- context [if ?b then _ else _] => destruct b
         end.

(** Membership of one finding in a list of findings built by [award] and
    [push]. *)
Ltac decide_finding :=
  unfold award, push, initial, setScore; simpl;
  intuition (try discriminate; try congruence).

(** The phrase [contents] is part of the phrase [table of contents]. *)
Lemma contents_test : forall t,
  includes t (lit "table of contents") || includes t (lit "contents")
  = includes t (lit "contents").
Proof.
  intros t. destruct (includes t (lit "table of contents")) eqn:E; [|reflexivity].
  cbn [orb]. symmetry. apply includes_trans with (p := lit "table of contents").
  - exact E.
  - vm_compute. reflexivity.
Qed.

(** X4. The table-of-contents points of the structure criterion are
    decided by the word [contents] alone: the finding is the positive one
    exactly when the lowercase text contains [contents], whether or not
    [table of] stands before it. *)
Theorem contents_alone_decides : forall (d : Document),
  (In "✓ Table of contents present"%string (details (structureAnalysis d)) <->
   includes (text d) (lit "contents") = true) /\
  (In "✗ No table of contents"%string (details (structureAnalysis d)) <->
   includes (text d) (lit "contents") = false).
Proof.
  intros d. unfold structureAnalysis. cbv zeta. rewrite contents_test.
  destruct (includes (text d) (lit "contents")); case_conditions; decide_finding.
Qed.

(** Phrases of a list that the text contains are counted. *)
Lemma countIncluded_at_least : forall (t : jsstring) (list found : list jsstring),
  NoDup found -> incl found list ->
  (forall k, In k found -> includes t k = true) ->
  (List.length found <= countIncluded t list)%nat.
Proof.
  intros t list found Hnodup Hincl Hall. unfold countIncluded.
  apply NoDup_incl_length; [exact Hnodup|].
  intros k Hk. apply filter_In. split; [apply Hincl | apply Hall]; exact Hk.
Qed.

Lemma two_phrases_counted : forall (t : jsstring) (list : list jsstring) (a b : jsstring),
  JS.eqb a b = false -> In a list -> In b list ->
  includes t a = true -> includes t b = true ->
  (2 <= countIncluded t list)%nat.
Proof.
  intros t list a b Hab Ha Hb Ia Ib.
  apply (countIncluded_at_least t list [a; b]).
  - constructor; [|constructor; [intros []|constructor]].
    intros [E|[]]. subst b.
    assert (R : forall s, JS.eqb s s = true).
    { induction s as [|c s IH]; [reflexivity|]. cbn [JS.eqb]. rewrite N.eqb_refl. exact IH. }
    rewrite R in Hab. discriminate.
  - intros k [E|[E|[]]]; subst k; assumption.
  - intros k [E|[E|[]]]; subst k; assumption.
Qed.

(** X5. The single word [references] in the text is counted as two
    formal-citation phrases ([reference] and [references]), which is
    enough for the 3 points of the citations criterion. *)
Theorem references_counts_twice : forall (d : Document),
  includes (text d) (lit "references") = true ->
  (2 <= formalCitationCount d)%nat /\
  In "✓ Formal citations present"%string (details (citationsAnalysis d)) /\
  3 <= score (citationsAnalysis d).
Proof.
  intros d H.
  assert (H2 : (2 <= formalCitationCount d)%nat).
  { unfold formalCitationCount.
    apply (two_phrases_counted _ _ (lit "reference") (lit "references")).
    - vm_compute. reflexivity.
    - unfold formalCitationPatterns. simpl. tauto.
    - unfold formalCitationPatterns. simpl. tauto.
    - apply includes_trans with (p := lit "references"); [exact H | vm_compute; reflexivity].
    - exact H. }
  split; [exact H2|].
  unfold citationsAnalysis. cbv zeta. apply Nat.leb_le in H2. rewrite H2.
  case_conditions; unfold award, push, initial; simpl; split; try lia; tauto.
Qed.

(** X6. The phrase [for instance] is counted as two example phrases
    ([instance] and [for instance]) and as a transition word: it earns
    the example points of comprehensiveness, and readability does not
    report missing transition words. *)
Theorem for_instance_counts_twice : forall (d : Document),
  includes (text d) (lit "for instance") = true ->
  (2 <= countIncluded (text d) exampleSignals)%nat /\
  In "✓ Includes examples or case studies"%string (details (comprehensivenessAnalysis d)) /\
  ~ In "✗ No transition words found"%string (details (readabilityAnalysis d)).
Proof.
  intros d H.
  assert (H2 : (2 <= countIncluded (text d) exampleSignals)%nat).
  { apply (two_phrases_counted _ _ (lit "instance") (lit "for instance")).
    - vm_compute. reflexivity.
    - unfold exampleSignals. simpl. tauto.
    - unfold exampleSignals. simpl. tauto.
    - apply includes_trans with (p := lit "for instance"); [exact H | vm_compute; reflexivity].
    - exact H. }
  assert (H1 : (1 <= countIncluded (text d) transitionWords)%nat).
  { apply (countIncluded_at_least _ _ [lit "for instance"]).
    - constructor; [intros []|constructor].
    - intros k [E|[]]. subst k. unfold transitionWords. simpl. tauto.
    - intros k [E|[]]. subst k. exact H. }
  split; [exact H2|]. split.
  - unfold comprehensivenessAnalysis. cbv zeta. apply Nat.leb_le in H2. rewrite H2.
    case_conditions; decide_finding.
  - unfold readabilityAnalysis. cbv zeta. apply Nat.leb_le in H1.
    destruct (3 <=? countIncluded (text d) transitionWords)%nat; [|rewrite H1];
      case_conditions; decide_finding.
Qed.

(** X7. Readability never scores below 2: the first two checks award a
    point even on their negative findings.  So no analysis totals less
    than 2. *)
Theorem readability_at_least_2 : forall (now : Clock) (d : Document),
  2 <= score (readabilityAnalysis d) <= 15 /\
  2 <= totalScore (analyze now d).
Proof.
  intros now d.
  assert (H : 2 <= score (readabilityAnalysis d) <= 15).
  { unfold readabilityAnalysis. cbv zeta. case_conditions;
      unfold award, push, initial; simpl; lia. }
  split; [exact H|].
  unfold analyze. cbn [totalScore]. rewrite sumScores_unfold. unfold evaluate.
  cbn [structure author metadata keywords tone credibility readability
       freshness comprehensiveness citations].
  destruct (structure_withinMax d) as [_ B1], (author_withinMax d) as [_ B2],
    (metadata_withinMax d) as [_ B3], (keywords_withinMax d) as [_ B4],
    (tone_withinMax d) as [_ B5], (credibility_withinMax d) as [_ B6],
    (freshness_withinMax now d) as [_ B8],
    (comprehensiveness_withinMax d) as [_ B9], (citations_withinMax d) as [_ B10].
  lia.
Qed.

(** X19. The structure criterion scores 0 exactly when the page has
    fewer than 3 headings, fewer than 2 lists, fewer than 5 paragraphs, no
    [contents] in its lowercase text and at most 2000 code units of
    markup; five paragraphs already earn their 2 points. *)
Theorem structure_zero_iff : forall (d : Document),
  score (structureAnalysis d) = 0 <->
  (sel_length (doc_dom d) (lit "h1, h2, h3, h4, h5, h6") < 3)%nat /\
  (sel_length (doc_dom d) (lit "ul, ol") < 2)%nat /\
  (sel_length (doc_dom d) (lit "p") < 5)%nat /\
  includes (text d) (lit "contents") = false /\
  (List.length (doc_data d) <= 2000)%nat.
Proof.
  intros d. unfold structureAnalysis. cbv zeta. rewrite contents_test.
  destruct (3 <=? sel_length (doc_dom d) (lit "h1, h2, h3, h4, h5, h6"))%nat eqn:E1;
    destruct (2 <=? sel_length (doc_dom d) (lit "ul, ol"))%nat eqn:E2;
    destruct (5 <=? sel_length (doc_dom d) (lit "p"))%nat eqn:E3;
    destruct (includes (text d) (lit "contents")) eqn:E4;
    destruct (2000 <? List.length (doc_data d))%nat eqn:E5;
    unfold award, push, initial; cbn [score];
    repeat match goal with
           | H : (_ <=? _)%nat = true |- _ => apply Nat.leb_le in H
           | H : (_ <=? _)%nat = false |- _ => apply Nat.leb_gt in H
           | H : (_ <? _)%nat = true |- _ => apply Nat.ltb_lt in H
           | H : (_ <? _)%nat = false |- _ => apply Nat.ltb_ge in H
           end;
    split; intros H; try discriminate H;
    repeat match goal with H : _ /\ _ |- _ => destruct H end;
    try discriminate; try lia; repeat split; try reflexivity; lia.
Qed.

(** *** Recommendations *)

Lemma pushIf_app : forall (cond : bool) (msg : string) (l : list string),
  pushIf cond msg l = (l ++ map snd (filter fst [(cond, msg)]))%list.
Proof.
  intros cond msg l. unfold pushIf. destruct cond; cbn [filter fst map snd].
  - reflexivity.
  - rewrite app_nil_r. reflexivity.
Qed.

Lemma filter_cons_app : forall (p : bool * string) (l : list (bool * string)),
  filter fst (p :: l) = (filter fst [p] ++ filter fst l)%list.
Proof.
  intros [b m] l. cbn [filter fst]. destruct b; reflexivity.
Qed.

(** The recommendations are the advisories of the table whose condition
    holds, in the order of the table. *)
Lemma recommend_table : forall (c : Criteria),
  recommend c = map snd (filter fst (advisoryTable c)).
Proof.
  intros c. unfold recommend, advisoryTable. cbv zeta.
  rewrite !pushIf_app. cbn [app].
  repeat (rewrite (filter_cons_app (_, _) (_ :: _)); rewrite map_app).
  rewrite <- !app_assoc. reflexivity.
Qed.

Lemma NoDup_map_filter : forall (l : list (bool * string)),
  NoDup (map snd l) -> NoDup (map snd (filter fst l)).
Proof.
  induction l as [|[b m] l IH]; intros H; [constructor|].
  cbn [map snd] in H. inversion H as [|x xs Hnotin Hrest]; subst.
  cbn [filter fst]. destruct b; [|apply IH; exact Hrest].
  cbn [map snd]. constructor; [|apply IH; exact Hrest].
  intros Hin. apply Hnotin. apply in_map_iff in Hin.
  destruct Hin as ([b' m'] & E & Hin'). apply filter_In in Hin'.
  apply in_map_iff. exists (b', m'). split; [exact E | apply Hin'].
Qed.

Lemma advisories_differ : forall (c : Criteria), NoDup (map snd (advisoryTable c)).
Proof.
  intros c. unfold advisoryTable. cbn [map snd].
  unfold adviceStructure, adviceAuthor, adviceMetadata, adviceKeywords, adviceTone,
    adviceCredibility, adviceReadability, adviceFreshness, adviceComprehensiveness,
    adviceCitations.
  repeat (constructor; [simpl; intuition discriminate|]). constructor.
Qed.

(** X8. The recommendations of an analysis never repeat an advisory,
    number at most ten, follow the fixed order of the ten criteria, and
    are empty exactly when every criterion reaches its threshold. *)
Theorem recommendations_shape : forall (now : Clock) (d : Document),
  let r := analyze now d in
  let c := criteria r in
  recommendations r = map snd (filter fst (advisoryTable c)) /\
  NoDup (recommendations r) /\
  (List.length (recommendations r) <= 10)%nat /\
  (recommendations r = [] <->
   7 <= score (structure c) /\ 5 <= score (author c) /\ 5 <= score (metadata c) /\
   5 <= score (keywords c) /\ 4 <= score (tone c) /\ 8 <= score (credibility c) /\
   8 <= score (readability c) /\ 5 <= score (freshness c) /\
   5 <= score (comprehensiveness c) /\ 5 <= score (citations c)).
Proof.
  intros now d r c. subst c r. unfold analyze. cbn [recommendations criteria].
  generalize (evaluate now d). intros c.
  rewrite recommend_table. split; [reflexivity|]. split; [|split].
  - apply NoDup_map_filter, advisories_differ.
  - rewrite length_map. etransitivity; [apply filter_length_le|]. reflexivity.
  - unfold advisoryTable. cbn [filter fst].
    rewrite <- !Z.ltb_ge.
    destruct (score (structure c) <? 7), (score (author c) <? 5),
      (score (metadata c) <? 5), (score (keywords c) <? 5), (score (tone c) <? 4),
      (score (credibility c) <? 8), (score (readability c) <? 8),
      (score (freshness c) <? 5), (score (comprehensiveness c) <? 5),
      (score (citations c) <? 5); cbn [map snd];
      split; intros H; try discriminate H; try tauto;
      repeat split; try reflexivity;
      repeat match goal with H : _ /\ _ |- _ => destruct H end; discriminate.
Qed.

(** *** Findings *)

(** X9. Every analysis reports a fixed number of findings per criterion:
    5 for structure, 3 for author, 4 for metadata, 3 for keywords, 2 for
    tone, 4 for credibility, 4 for readability, 3 for citations; freshness
    reports 1 or 2 and comprehensiveness 3 or 4. *)
Theorem findings_per_criterion : forall (now : Clock) (d : Document),
  let c := criteria (analyze now d) in
  List.length (details (structure c)) = 5%nat /\
  List.length (details (author c)) = 3%nat /\
  List.length (details (metadata c)) = 4%nat /\
  List.length (details (keywords c)) = 3%nat /\
  List.length (details (tone c)) = 2%nat /\
  List.length (details (credibility c)) = 4%nat /\
  List.length (details (readability c)) = 4%nat /\
  (1 <= List.length (details (freshness c)) <= 2)%nat /\
  (3 <= List.length (details (comprehensiveness c)) <= 4)%nat /\
  List.length (details (citations c)) = 3%nat.
Proof.
  intros now d c. subst c. unfold analyze, evaluate.
  cbn [criteria structure author metadata keywords tone credibility readability
       freshness comprehensiveness citations].
  repeat match goal with |- _ /\ _ => split end.
  - unfold structureAnalysis. cbv zeta. case_conditions; reflexivity.
  - unfold authorAnalysis. cbv zeta. case_conditions; reflexivity.
  - unfold metadataAnalysis. cbv zeta. case_conditions; reflexivity.
  - unfold keywordsAnalysis. cbv zeta. case_conditions; reflexivity.
  - unfold toneAnalysis. cbv zeta. case_conditions; reflexivity.
  - unfold credibilityAnalysis. cbv zeta. case_conditions; reflexivity.
  - unfold readabilityAnalysis. cbv zeta. case_conditions; reflexivity.
  - unfold freshnessAnalysis. destruct (dateSignal now d) as [s f].
    case_conditions; cbn; lia.
  - unfold freshnessAnalysis. destruct (dateSignal now d) as [s f].
    case_conditions; cbn; lia.
  - unfold comprehensivenessAnalysis. cbv zeta. case_conditions; cbn; lia.
  - unfold comprehensivenessAnalysis. cbv zeta. case_conditions; cbn; lia.
  - unfold citationsAnalysis. cbv zeta. case_conditions; reflexivity.
Qed.

Ltac all_marked :=
  cbv zeta; case_conditions; vm_compute; reflexivity.

Lemma findings_marked : forall (now : Clock) (d : Document) (c : CriteriaScore),
  In c (criteriaValues (criteria (analyze now d))) ->
  forallb wellMarked (details c) = true.
Proof.
  intros now d c Hin. unfold analyze, evaluate, criteriaValues in Hin.
  cbn [criteria structure author metadata keywords tone credibility readability
       freshness comprehensiveness citations In] in Hin.
  repeat (destruct Hin as [E|Hin]; [subst c|]); [..|destruct Hin].
  - unfold structureAnalysis. all_marked.
  - unfold authorAnalysis. all_marked.
  - unfold metadataAnalysis. all_marked.
  - unfold keywordsAnalysis. all_marked.
  - unfold toneAnalysis. all_marked.
  - unfold credibilityAnalysis. all_marked.
  - unfold readabilityAnalysis. all_marked.
  - unfold freshnessAnalysis. destruct (dateSignal now d) as [s f]. all_marked.
  - unfold comprehensivenessAnalysis. all_marked.
  - unfold citationsAnalysis. all_marked.
Qed.

Lemma wellMarked_spec : forall (detail : string),
  wellMarked detail = true ->
  findingPassed detail = false /\
  exists mark, (mark = 10003%N \/ mark = 10007%N) /\
               utf16 detail = mark :: 32%N :: findingText detail.
Proof.
  intros detail. unfold wellMarked, findingPassed, findingText.
  destruct (utf16 detail) as [|mark [|space rest]]; try discriminate.
  intros H. apply andb_true_iff in H. destruct H as [Hm Hs].
  apply N.eqb_eq in Hs. subst space.
  apply orb_true_iff in Hm. destruct Hm as [Hm|Hm]; apply N.eqb_eq in Hm; subst mark.
  - split; [reflexivity|]. exists 10003%N. split; [left|]; reflexivity.
  - split; [reflexivity|]. exists 10007%N. split; [right|]; reflexivity.
Qed.

(** X10. Every finding of every criterion starts with the check mark
    U+2713 or the cross U+2717 followed by a space, so [substring(2)] on
    the page shows the bare message; and no finding starts with the three
    code units the page tests for, so the page gives every finding, the
    positive ones too, the failure icon. *)
Theorem no_finding_gets_check_icon :
  forall (now : Clock) (d : Document) (c : CriteriaScore) (detail : string),
  In c (criteriaValues (criteria (analyze now d))) ->
  In detail (details c) ->
  findingPassed detail = false /\
  exists mark, (mark = 10003%N \/ mark = 10007%N) /\
               utf16 detail = mark :: 32%N :: findingText detail.
Proof.
  intros now d c detail Hc Hd. apply wellMarked_spec.
  pose proof (findings_marked now d c Hc) as H.
  rewrite forallb_forall in H. apply H. exact Hd.
Qed.

(** *** The findings of freshness *)

Lemma dateSignal_found_dated : forall now d,
  attrTruthy (publishDate d) = true -> snd (dateSignal now d) = true.
Proof.
  intros now d H. unfold dateSignal. unfold attrTruthy in H.
  destruct (publishDate d) as [published|]; [|discriminate].
  rewrite H. reflexivity.
Qed.

(** X11. Freshness reports that no publication date was found exactly
    when the page has no structured date and its lowercase text contains
    neither the current year nor the year before; in every other case it
    reports one of the three dated findings instead. *)
Theorem no_date_finding_iff : forall (now : Clock) (d : Document),
  In "✗ No clear publication date found"%string (details (freshnessAnalysis now d)) <->
  attrTruthy (publishDate d) = false /\
  includes (text d) (intToString (getFullYear now)) = false /\
  includes (text d) (intToString (getFullYear now - 1)) = false.
Proof.
  intros now d.
  assert (Hfound : snd (dateSignal now d) = false <->
                   attrTruthy (publishDate d) = false /\
                   includes (text d) (intToString (getFullYear now)) = false /\
                   includes (text d) (intToString (getFullYear now - 1)) = false).
  { destruct (attrTruthy (publishDate d)) eqn:Hp.
    - rewrite (dateSignal_found_dated now d Hp). split; [discriminate | intros [H _]; discriminate].
    - rewrite (dateSignal_undated now d Hp).
      destruct (includes (text d) (intToString (getFullYear now)));
        destruct (includes (text d) (intToString (getFullYear now - 1)));
        cbn [snd]; intuition discriminate. }
  rewrite <- Hfound. unfold freshnessAnalysis.
  destruct (dateSignal now d) as [s f]. cbn [snd].
  destruct f; case_conditions; decide_finding.
Qed.

(** X12. On a page without a structured date whose text names the
    current year and holds two recency words, the year fallback gives 6,
    the recency bonus raises it to 8, and freshness reports the content as
    very recent, within 3 months. *)
Theorem current_year_and_recency_words : forall (now : Clock) (d : Document),
  attrTruthy (publishDate d) = false ->
  includes (text d) (intToString (getFullYear now)) = true ->
  (2 <= recencyCount d)%nat ->
  freshnessAnalysis now d =
  {| score := 8; max := 10;
     details := ["✓ Contains recency signals"%string;
                 "✓ Very recent content (within 3 months)"%string] |}.
Proof.
  intros now d Hundated Hyear Hrecency. unfold freshnessAnalysis.
  rewrite (dateSignal_undated now d Hundated), Hyear.
  apply Nat.leb_le in Hrecency. rewrite Hrecency. reflexivity.
Qed.

(** *** The year fallback and the recency bonus *)

Lemma recencySignals_differ : NoDup recencySignals.
Proof.
  unfold recencySignals.
  repeat (constructor;
          [ intros H; cbn [In] in H;
            repeat (destruct H as [H|H]; [vm_compute in H; discriminate H|]);
            exact H
          | ]).
  constructor.
Qed.

(** None of the three reads of a publish date is truthy. *)
Lemma publishDate_absent : forall d,
  attrTruthy (sel_attr (doc_dom d) (quoted "meta[property=" "article:published_time" "]")
                (lit "content")) = false ->
  attrTruthy (sel_attr (doc_dom d) (quoted "meta[name=" "date" "]") (lit "content"))
    = false ->
  attrTruthy (sel_attr (doc_dom d) (lit "time") (lit "datetime")) = false ->
  attrTruthy (publishDate d) = false.
Proof.
  intros d H1 H2 H3. unfold publishDate, orElse. rewrite H1, H2. exact H3.
Qed.

(** Two different recency words in the text make the count reach 2. *)
Lemma two_recency_words : forall d a b,
  In a recencySignals -> In b recencySignals -> a <> b ->
  includes (text d) a = true -> includes (text d) b = true ->
  (2 <= recencyCount d)%nat.
Proof.
  intros d a b Ha Hb Hab Ia Ib. unfold recencyCount.
  apply (countIncluded_at_least (text d) recencySignals [a; b]).
  - constructor; [|constructor; [intros []|constructor]].
    intros [E|[]]. apply Hab. symmetry. exact E.
  - intros k [E|[E|[]]]; subst k; assumption.
  - intros k [E|[E|[]]]; subst k; assumption.
Qed.

(** When the text holds at most one recency word the count is below 2. *)
Lemma one_recency_word_at_most : forall d,
  (forall a b, In a recencySignals -> In b recencySignals ->
               includes (text d) a = true -> includes (text d) b = true -> a = b) ->
  (recencyCount d < 2)%nat.
Proof.
  intros d Hone. unfold recencyCount, countIncluded.
  pose proof (NoDup_filter (fun k => includes (text d) k) recencySignals_differ) as Hnodup.
  destruct (filter (fun k => includes (text d) k) recencySignals) as [|x [|y rest]] eqn:E;
    cbn [List.length]; try lia.
  exfalso.
  assert (Hx : In x (filter (fun k => includes (text d) k) recencySignals))
    by (rewrite E; left; reflexivity).
  assert (Hy : In y (filter (fun k => includes (text d) k) recencySignals))
    by (rewrite E; right; left; reflexivity).
  apply filter_In in Hx. apply filter_In in Hy.
  destruct Hx as [Hx Ix], Hy as [Hy Iy].
  assert (Exy : x = y) by (apply Hone; assumption).
  inversion Hnodup as [|x' l' Hnotin _]; subst. apply Hnotin. left. reflexivity.
Qed.

(** C7. When none of the three reads of a structured publish date
    gives a value, the freshness score before the recency bonus is 6 if
    the lowercase text contains the current year, 4 if it contains only
    the previous year, and 0 otherwise.  Independently, two different
    words of the recency list found in the text add 2, capped at 10, and
    are reported; with at most one such word nothing is added. *)
Theorem freshness_year_fallback : forall (now : Clock) (d : Document),
  attrTruthy (sel_attr (doc_dom d) (quoted "meta[property=" "article:published_time" "]")
                (lit "content")) = false ->
  attrTruthy (sel_attr (doc_dom d) (quoted "meta[name=" "date" "]") (lit "content"))
    = false ->
  attrTruthy (sel_attr (doc_dom d) (lit "time") (lit "datetime")) = false ->
  let current := includes (text d) (intToString (getFullYear now)) in
  let previous := includes (text d) (intToString (getFullYear now - 1)) in
  let before := fst (dateSignal now d) in
  (current = true -> before = 6) /\
  (current = false -> previous = true -> before = 4) /\
  (current = false -> previous = false -> before = 0) /\
  (forall a b,
     In a recencySignals -> In b recencySignals -> a <> b ->
     includes (text d) a = true -> includes (text d) b = true ->
     score (freshnessAnalysis now d) = Z.min 10 (before + 2) /\
     score (freshnessAnalysis now d) = before + 2 /\
     In "✓ Contains recency signals"%string (details (freshnessAnalysis now d))) /\
  ((forall a b,
      In a recencySignals -> In b recencySignals ->
      includes (text d) a = true -> includes (text d) b = true -> a = b) ->
   score (freshnessAnalysis now d) = before /\
   ~ In "✓ Contains recency signals"%string (details (freshnessAnalysis now d))).
Proof.
  intros now d H1 H2 H3 current previous before. subst current previous before.
  pose proof (publishDate_absent d H1 H2 H3) as Hundated.
  rewrite (dateSignal_undated now d Hundated).
  split; [intros E; rewrite E; reflexivity|].
  split; [intros E1 E2; rewrite E1, E2; reflexivity|].
  split; [intros E1 E2; rewrite E1, E2; reflexivity|].
  split.
  - intros a b Ha Hb Hab Ia Ib.
    pose proof (two_recency_words d a b Ha Hb Hab Ia Ib) as Hcount.
    apply Nat.leb_le in Hcount.
    unfold freshnessAnalysis. rewrite (dateSignal_undated now d Hundated), Hcount.
    destruct (includes (text d) (intToString (getFullYear now)));
      [|destruct (includes (text d) (intToString (getFullYear now - 1)))];
      cbn; repeat split; tauto.
  - intros Hone.
    pose proof (one_recency_word_at_most d Hone) as Hcount.
    apply Nat.leb_gt in Hcount.
    unfold freshnessAnalysis. rewrite (dateSignal_undated now d Hundated), Hcount.
    destruct (includes (text d) (intToString (getFullYear now)));
      [|destruct (includes (text d) (intToString (getFullYear now - 1)))];
      cbn; split; try reflexivity; intuition discriminate.
Qed.

End EngineFacts.

(* ================================================================== *)
(** ** Further properties of the route handler and of the page *)
(* ================================================================== *)

Section HandlerFacts.

Context {rt : Runtime} {net : Network}.

Local Open Scope Z_scope.

(** X13. Whatever the request, the handler fetches at most once; an
    error response has status 400, with nothing fetched, or status 500;
    and an analysis is returned only after one fetch that gave text, is
    the analysis of that text, and carries the requested [url]. *)
Theorem POST_outcomes : forall (now : Clock) (request : RequestBody),
  let outcome := POST now request in
  (List.length (fetched outcome) <= 1)%nat /\
  (forall status error,
     response outcome = Error status error ->
     (status = 400 /\ fetched outcome = []) \/ status = 500) /\
  (forall analysis,
     response outcome = Analysis analysis ->
     exists u data,
       fetched outcome = [u] /\
       axios_get u = Some (TextData data) /\
       analysis = analyze now {| doc_url := u; doc_data := data;
                                 doc_dom := cheerio_load data |} /\
       url analysis = u).
Proof.
  intros now request outcome. subst outcome. unfold POST.
  destruct (request_json request) as [body|]; cbn [caught response fetched List.length];
    [|repeat split; [lia | intros s e E; inversion E; tauto | intros a E; discriminate E]].
  destruct (destructureUrl body) as [[u|]|]; cbn [caught response fetched List.length];
    try (repeat split; [lia | intros s e E; inversion E; tauto | intros a E; discriminate E]).
  destruct (negb (truthy (Some u))); cbn [response fetched List.length];
    [repeat split; [lia | intros s e E; inversion E; tauto | intros a E; discriminate E]|].
  destruct (negb (URL_parses (ToString NumberToString u))); cbn [response fetched List.length];
    [repeat split; [lia | intros s e E; inversion E; tauto | intros a E; discriminate E]|].
  destruct (axios_get u) as [[data|]|] eqn:Hget; cbn [caught response fetched List.length];
    try (repeat split; [lia | intros s e E; inversion E; tauto | intros a E; discriminate E]).
  repeat split; [lia | intros s e E; discriminate E |].
  intros a E. inversion E; subst a. exists u, data. repeat split. exact Hget.
Qed.

(** X14. When the [url] passes both checks and the fetch fails, or gives
    something that is not text, the handler answers 500 with the generic
    message after that one attempt, and returns no analysis. *)
Theorem failed_fetch_answered_500 : forall (now : Clock) (body u : Json),
  destructureUrl body = Some (Some u) ->
  truthy (Some u) = true ->
  URL_parses (ToString NumberToString u) = true ->
  axios_get u = None \/ axios_get u = Some OtherData ->
  POST now (JsonBody body) =
  {| response :=
       Error 500 "Failed to analyze the webpage. Please check the URL and try again.";
     fetched := [u] |}.
Proof.
  intros now body u Hurl Ht Hp Hget. unfold POST. cbn [request_json].
  rewrite Hurl, Ht, Hp. cbn [negb]. destruct Hget as [E|E]; rewrite E; reflexivity.
Qed.

(** The body the page sends holds the typed address under [url]. *)
Lemma page_body_url : forall (typed : jsstring),
  destructureUrl (JObject [(lit "url", JString typed)]) = Some (Some (JString typed)).
Proof. intros typed. reflexivity. Qed.

(** X15. A request sent by the page (a JSON object whose [url] is the
    non-empty string typed in) is never answered "URL is required" and
    never falls into the catch before the fetch: either the address does
    not parse, and the answer is 400 "Invalid URL format" with nothing
    fetched, or exactly the typed address is fetched. *)
Theorem page_request_outcomes : forall (now : Clock) (typed : jsstring),
  nonEmpty typed = true ->
  let outcome := POST now (JsonBody (JObject [(lit "url", JString typed)])) in
  (URL_parses typed = false /\
   outcome = {| response := Error 400 "Invalid URL format"; fetched := [] |}) \/
  (URL_parses typed = true /\ fetched outcome = [JString typed]).
Proof.
  intros now typed Htyped outcome. subst outcome. unfold POST.
  cbn [request_json]. rewrite page_body_url. cbn [truthy ToString].
  rewrite Htyped. cbn [negb].
  destruct (URL_parses typed); cbn [negb].
  - right. split; [reflexivity|].
    destruct (axios_get (JString typed)) as [[data|]|]; reflexivity.
  - left. split; reflexivity.
Qed.

(** X16. [analyzeUrl] does nothing and sends nothing while no address is
    typed; otherwise it sends one request whose body holds the address
    under [url], ends with [loading] off, and leaves either the analysis
    with an empty error, or the fixed error message with no result: an
    earlier result does not survive a failed analysis. *)
Theorem analyzeUrl_final_state :
  forall (server : RequestBody -> option Response) (st : PageState),
  let body := JsonBody (JObject [(lit "url", JString (page_url st))]) in
  let st' := fst (analyzeUrl server st) in
  let sent := snd (analyzeUrl server st) in
  (page_url st = [] -> st' = st /\ sent = []) /\
  (page_url st <> [] ->
   sent = [body] /\ loading st' = false /\ page_url st' = page_url st /\
   ((exists data, server body = Some (Analysis data) /\
                  result st' = Some data /\ error st' = ""%string) \/
    ((forall data, server body <> Some (Analysis data)) /\
     result st' = None /\
     error st' = "Failed to analyze the URL. Please check the URL and try again."%string))).
Proof.
  intros server st body st' sent. subst body st' sent. unfold analyzeUrl.
  destruct (page_url st) as [|c typed] eqn:E; cbn [nonEmpty negb].
  - split; [intros _; split; reflexivity | intros H; congruence].
  - split; [discriminate|]. intros _.
    destruct (server _) as [[data|status msg]|]; cbn [fst snd loading page_url result error].
    + repeat split. left. exists data. repeat split.
    + repeat split. right. repeat split. intros data. discriminate.
    + repeat split. right. repeat split. intros data. discriminate.
Qed.

(** X20. The handler answers 400 exactly when the body is JSON other
    than [null] and its [url] is missing or false ("URL is required") or
    does not parse as a URL ("Invalid URL format"); no other request gets
    a 400. *)
Theorem status_400_iff : forall (now : Clock) (request : RequestBody) (error : string),
  response (POST now request) = Error 400 error <->
  exists body url,
    request = JsonBody body /\ destructureUrl body = Some url /\
    ((truthy url = false /\ error = "URL is required"%string) \/
     (truthy url = true /\ error = "Invalid URL format"%string /\
      exists u, url = Some u /\ URL_parses (ToString NumberToString u) = false)).
Proof.
  intros now request error. unfold POST. split.
  - destruct request as [|raw|body]; cbn [request_json caught response];
      try (intros E; inversion E; fail).
    destruct (destructureUrl body) as [[u|]|] eqn:Hurl; cbn [caught response];
      try (intros E; inversion E; fail).
    + destruct (truthy (Some u)) eqn:Ht; cbn [negb response].
      * destruct (URL_parses (ToString NumberToString u)) eqn:Hp; cbn [negb response].
        -- destruct (axios_get u) as [[data|]|]; cbn [caught response];
             intros E; inversion E.
        -- intros E. inversion E. exists body, (Some u).
           split; [reflexivity|]. split; [exact Hurl|]. right.
           split; [exact Ht|]. split; [reflexivity|]. exists u. split; [reflexivity|exact Hp].
      * intros E. inversion E. exists body, (Some u).
        split; [reflexivity|]. split; [exact Hurl|]. left. split; [exact Ht|reflexivity].
    + intros E. inversion E. exists body, None.
      split; [reflexivity|]. split; [exact Hurl|]. left. split; reflexivity.
  - intros (body & url & Ereq & Hurl & Hcases). subst request.
    cbn [request_json]. rewrite Hurl.
    destruct Hcases as [[Ht Emsg] | (Ht & Emsg & u & Eu & Hp)]; subst error.
    + destruct url as [u|]; [|reflexivity]. rewrite Ht. reflexivity.
    + subst url. rewrite Ht, Hp. reflexivity.
Qed.

End HandlerFacts.

Section PageFacts.

Context {rt : Runtime}.

Local Open Scope Z_scope.

Lemma in_enumeration : forall (t : Z) (n : nat),
  0 <= t < Z.of_nat n -> In t (map Z.of_nat (seq 0 n)).
Proof.
  intros t n H. apply in_map_iff. exists (Z.to_nat t). split; [lia|].
  apply in_seq. lia.
Qed.

Lemma sum_range : forall now d, 0 <= sumScores (evaluate now d) <= 100.
Proof.
  intros now d. rewrite sumScores_unfold. unfold evaluate.
  cbn [structure author metadata keywords tone credibility readability
       freshness comprehensiveness citations].
  destruct (structure_withinMax d) as [M1 B1], (author_withinMax d) as [M2 B2],
    (metadata_withinMax d) as [M3 B3], (keywords_withinMax d) as [M4 B4],
    (tone_withinMax d) as [M5 B5], (credibility_withinMax d) as [M6 B6],
    (readability_withinMax d) as [M7 B7], (freshness_withinMax now d) as [M8 B8],
    (comprehensiveness_withinMax d) as [M9 B9], (citations_withinMax d) as [M10 B10].
  lia.
Qed.

(** The thresholds of the page on the double percentage agree with the
    same thresholds on the integer total. *)
Lemma percentage_thresholds : forall (t : Z),
  0 <= t <= 100 ->
  let p := (Num.ofZ t / Num.ofZ 100 * 100)%float in
  Num.geb p 80 = (80 <=? t) /\ Num.geb p 60 = (60 <=? t) /\
  (p <? 80)%float = (t <? 80) /\ (p <? 60)%float = (t <? 60).
Proof.
  intros t Ht p. subst p.
  assert (Hall : forallb
            (fun t => let p := (Num.ofZ t / Num.ofZ 100 * 100)%float in
                      Bool.eqb (Num.geb p 80) (80 <=? t) && Bool.eqb (Num.geb p 60) (60 <=? t)
                      && Bool.eqb (p <? 80)%float (t <? 80)
                      && Bool.eqb (p <? 60)%float (t <? 60))
            (map Z.of_nat (seq 0 101)) = true) by (vm_compute; reflexivity).
  rewrite forallb_forall in Hall.
  specialize (Hall t (in_enumeration t 101 ltac:(lia))). cbv zeta in Hall.
  repeat (apply andb_true_iff in Hall; destruct Hall as [Hall ?]).
  repeat split; apply Bool.eqb_prop; assumption.
Qed.

Lemma badge_of_total : forall (t : Z),
  0 <= t <= 100 ->
  let p := (Num.ofZ t / Num.ofZ 100 * 100)%float in
  getScoreColor p =
    (if 80 <=? t then "text-green-600"%string
     else if 60 <=? t then "text-yellow-600"%string else "text-red-600"%string) /\
  getScoreBadgeVariant p =
    (if 80 <=? t then "default"%string
     else if 60 <=? t then "secondary"%string else "destructive"%string) /\
  scoreMessages p =
    [if 80 <=? t
     then "Excellent! This content is highly likely to be cited by AI tools."%string
     else if 60 <=? t then "Good potential with room for improvement."%string
     else "Needs optimization to improve AI citation likelihood."%string].
Proof.
  intros t Hrange p.
  destruct (percentage_thresholds t Hrange) as (H80 & H60 & L80 & L60).
  fold p in H80, H60, L80, L60.
  unfold getScoreColor, getScoreBadgeVariant, scoreMessages.
  rewrite H80, H60, L80, L60. clear H80 H60 L80 L60. clearbody p.
  destruct (80 <=? t) eqn:E80; destruct (60 <=? t) eqn:E60;
    destruct (t <? 80) eqn:F80; destruct (t <? 60) eqn:F60;
    try (repeat split; reflexivity); exfalso; lia.
Qed.

(** X17. On the result of any analysis the page's colour, badge and
    message follow the integer total: green, [default] and the first
    message from 80, yellow, [secondary] and the second from 60, red,
    [destructive] and the third below; exactly one message is shown.  The
    rounding of the double percentage never moves a threshold. *)
Theorem badge_follows_total : forall (now : Clock) (d : Document),
  let r := analyze now d in
  let t := totalScore r in
  getScoreColor (percentage r) =
    (if 80 <=? t then "text-green-600"%string
     else if 60 <=? t then "text-yellow-600"%string else "text-red-600"%string) /\
  getScoreBadgeVariant (percentage r) =
    (if 80 <=? t then "default"%string
     else if 60 <=? t then "secondary"%string else "destructive"%string) /\
  scoreMessages (percentage r) =
    [if 80 <=? t
     then "Excellent! This content is highly likely to be cited by AI tools."%string
     else if 60 <=? t then "Good potential with room for improvement."%string
     else "Needs optimization to improve AI citation likelihood."%string].
Proof.
  intros now d r t. subst t r. unfold analyze. cbn [totalScore percentage].
  exact (badge_of_total (sumScores (evaluate now d)) (sum_range now d)).
Qed.

(** X18. The percentage the page computes for a criterion card,
    [(score / max) * 100], is a number between 0 and 100 for every
    criterion of every analysis: no maximum is 0, so it is never NaN or
    infinite. *)
Theorem criterion_percentage_in_range : forall (now : Clock) (d : Document),
  Forall (fun c => ((0 <=? criterionPercentage c) && (criterionPercentage c <=? 100))%float
                   = true)
    (criteriaValues (criteria (analyze now d))).
Proof.
  intros now d.
  assert (Hall : forall m s, In m [6; 8; 10; 15] -> 0 <= s <= m ->
            let p := (Num.ofZ s / Num.ofZ m * 100)%float in
            ((0 <=? p) && (p <=? 100))%float = true).
  { intros m s Hm Hs.
    assert (Htable : forallb
              (fun m => forallb
                 (fun s => let p := (Num.ofZ s / Num.ofZ m * 100)%float in
                           negb (s <=? m) || ((0 <=? p) && (p <=? 100))%float)
                 (map Z.of_nat (seq 0 16)))
              [6; 8; 10; 15] = true) by (vm_compute; reflexivity).
    rewrite forallb_forall in Htable. specialize (Htable m Hm).
    rewrite forallb_forall in Htable.
    assert (Hin : In s (map Z.of_nat (seq 0 16))).
    { apply in_enumeration. simpl in Hm. lia. }
    specialize (Htable s Hin). cbv zeta in Htable.
    replace (s <=? m) with true in Htable by (symmetry; apply Z.leb_le; lia).
    exact Htable. }
  assert (Hone : forall m c, In m [6; 8; 10; 15] -> withinMax m c ->
            ((0 <=? criterionPercentage c) && (criterionPercentage c <=? 100))%float = true).
  { intros m c Hm [Hmax Hs]. unfold criterionPercentage. rewrite Hmax in *.
    apply (Hall m (score c) Hm Hs). }
  unfold analyze, evaluate, criteriaValues.
  cbn [criteria structure author metadata keywords tone credibility readability
       freshness comprehensiveness citations].
  repeat (apply Forall_cons; [|]); [..|apply Forall_nil].
  - apply (Hone 10); [simpl; tauto | apply structure_withinMax].
  - apply (Hone 8); [simpl; tauto | apply author_withinMax].
  - apply (Hone 8); [simpl; tauto | apply metadata_withinMax].
  - apply (Hone 8); [simpl; tauto | apply keywords_withinMax].
  - apply (Hone 6); [simpl; tauto | apply tone_withinMax].
  - apply (Hone 15); [simpl; tauto | apply credibility_withinMax].
  - apply (Hone 15); [simpl; tauto | apply readability_withinMax].
  - apply (Hone 10); [simpl; tauto | apply freshness_withinMax].
  - apply (Hone 10); [simpl; tauto | apply comprehensiveness_withinMax].
  - apply (Hone 10); [simpl; tauto | apply citations_withinMax].
Qed.

End PageFacts.

(* ================================================================== *)
(** ** Concrete runs of the further properties *)
(* ================================================================== *)

(** A page that says "See the references below". *)
Lemma references_counts_twice_witness :
  includes (text (rt := exampleRuntime) (textPage "See the references below"))
    (lit "references") = true /\
  (3 <= score (citationsAnalysis (rt := exampleRuntime)
                 (textPage "See the references below")))%Z.
Proof.
  split; [vm_compute; reflexivity|].
  destruct (references_counts_twice (rt := exampleRuntime)
              (textPage "See the references below") eq_refl) as (_ & _ & H).
  exact H.
Defined.

(** A page that says "Take Rome, for instance". *)
Lemma for_instance_counts_twice_witness :
  includes (text (rt := exampleRuntime) (textPage "Take Rome, for instance"))
    (lit "for instance") = true /\
  (2 <= countIncluded (text (rt := exampleRuntime) (textPage "Take Rome, for instance"))
          exampleSignals)%nat.
Proof.
  split; [vm_compute; reflexivity|].
  destruct (for_instance_counts_twice (rt := exampleRuntime)
              (textPage "Take Rome, for instance") eq_refl) as (H & _).
  exact H.
Defined.

(** The positive finding of tone on the empty page. *)
Lemma no_finding_gets_check_icon_witness :
  In (toneAnalysis (rt := exampleRuntime) emptyPage)
     (criteriaValues (criteria (analyze (rt := exampleRuntime) january2026 emptyPage))) /\
  In "✓ Non-promotional tone"%string (details (toneAnalysis (rt := exampleRuntime) emptyPage)) /\
  findingPassed "✓ Non-promotional tone" = false.
Proof.
  assert (H1 : In (toneAnalysis (rt := exampleRuntime) emptyPage)
                 (criteriaValues
                    (criteria (analyze (rt := exampleRuntime) january2026 emptyPage)))).
  { do 4 right. left. reflexivity. }
  assert (H2 : In "✓ Non-promotional tone"%string
                 (details (toneAnalysis (rt := exampleRuntime) emptyPage))).
  { left. reflexivity. }
  split; [exact H1 | split; [exact H2|]].
  destruct (no_finding_gets_check_icon (rt := exampleRuntime) january2026 emptyPage
              _ _ H1 H2) as [H _].
  exact H.
Defined.

(** A page that says "Latest update 2026", read in 2026. *)
Lemma current_year_and_recency_words_witness :
  attrTruthy (publishDate (textPage "Latest update 2026")) = false /\
  includes (text (rt := exampleRuntime) (textPage "Latest update 2026"))
    (intToString (getFullYear january2026)) = true /\
  (2 <= recencyCount (rt := exampleRuntime) (textPage "Latest update 2026"))%nat /\
  score (freshnessAnalysis (rt := exampleRuntime) january2026
           (textPage "Latest update 2026")) = 8%Z.
Proof.
  assert (H3 : (2 <= recencyCount (rt := exampleRuntime)
                      (textPage "Latest update 2026"))%nat).
  { vm_compute. apply le_n. }
  split; [reflexivity | split; [vm_compute; reflexivity | split; [exact H3|]]].
  rewrite (current_year_and_recency_words (rt := exampleRuntime) january2026
             (textPage "Latest update 2026") eq_refl eq_refl H3).
  reflexivity.
Defined.

(** A valid address on a network where every fetch fails. *)
Lemma failed_fetch_answered_500_witness :
  destructureUrl (JObject [(lit "url", JString (lit "https://example.com/"))])
    = Some (Some (JString (lit "https://example.com/"))) /\
  fetched (POST (rt := exampleRuntime) (net := offlineNetwork) january2026
             (JsonBody (JObject [(lit "url", JString (lit "https://example.com/"))])))
    = [JString (lit "https://example.com/")].
Proof.
  split; [reflexivity|].
  rewrite (failed_fetch_answered_500 (rt := exampleRuntime) (net := offlineNetwork)
             january2026
             (JObject [(lit "url", JString (lit "https://example.com/"))])
             (JString (lit "https://example.com/"))
             eq_refl eq_refl eq_refl (or_introl eq_refl)).
  reflexivity.
Defined.

(** The page sends an address that is no URL. *)
Lemma page_request_outcomes_witness :
  nonEmpty (lit "not a url") = true /\
  response (POST (rt := exampleRuntime) (net := exampleNetwork) january2026
              (JsonBody (JObject [(lit "url", JString (lit "not a url"))])))
    = Error 400 "Invalid URL format".
Proof.
  split; [reflexivity|].
  destruct (page_request_outcomes (rt := exampleRuntime) (net := exampleNetwork)
              january2026 (lit "not a url") eq_refl) as [[_ H] | [H _]].
  - rewrite H. reflexivity.
  - discriminate H.
Defined.

(** The year fallback on four pages read in January 2026: one that
    names 2026, one that names only 2025, the empty page, and one that
    names 2026 beside the recency words [latest] and [update]. *)
Lemma freshness_year_fallback_witness :
  fst (dateSignal (rt := exampleRuntime) january2026 yearPage) = 6 /\
  score (freshnessAnalysis (rt := exampleRuntime) january2026 yearPage) = 6 /\
  fst (dateSignal (rt := exampleRuntime) january2026 (textPage "Copyright 2025")) = 4 /\
  fst (dateSignal (rt := exampleRuntime) january2026 emptyPage) = 0 /\
  score (freshnessAnalysis (rt := exampleRuntime) january2026
           (textPage "Latest update 2026")) = 8.
Proof.
  pose proof (freshness_year_fallback (rt := exampleRuntime) january2026 yearPage
                eq_refl eq_refl eq_refl) as Hyear.
  pose proof (freshness_year_fallback (rt := exampleRuntime) january2026
                (textPage "Copyright 2025") eq_refl eq_refl eq_refl) as Hprevious.
  pose proof (freshness_year_fallback (rt := exampleRuntime) january2026 emptyPage
                eq_refl eq_refl eq_refl) as Hneither.
  pose proof (freshness_year_fallback (rt := exampleRuntime) january2026
                (textPage "Latest update 2026") eq_refl eq_refl eq_refl) as Hbonus.
  cbv zeta in Hyear, Hprevious, Hneither, Hbonus.
  destruct Hyear as (Y6 & _ & _ & _ & Ynone).
  destruct Hprevious as (_ & P4 & _).
  destruct Hneither as (_ & _ & N0 & _).
  destruct Hbonus as (B6 & _ & _ & Btwo & _).
  split; [apply Y6; vm_compute; reflexivity|].
  split.
  - destruct Ynone as [Hscore _].
    + intros a b Ha _ Ia _. exfalso. unfold recencySignals in Ha. cbn [In] in Ha.
      repeat (destruct Ha as [Ha|Ha]; [subst a; vm_compute in Ia; discriminate Ia|]).
      exact Ha.
    + rewrite Hscore. apply Y6. vm_compute. reflexivity.
  - split; [apply P4; vm_compute; reflexivity|].
    split; [apply N0; vm_compute; reflexivity|].
    destruct (Btwo (lit "latest") (lit "update")) as (_ & Hscore & _).
    + unfold recencySignals. cbn [In]. tauto.
    + unfold recencySignals. cbn [In]. tauto.
    + intros E. vm_compute in E. discriminate E.
    + vm_compute. reflexivity.
    + vm_compute. reflexivity.
    + rewrite Hscore, B6; [reflexivity | vm_compute; reflexivity].
Defined.

(** The description bonus on two pages whose meta description has 51
    and 50 letters. *)
Lemma description_bonus_above_50_witness :
  sel_attr (doc_dom (describedPage 51)) (quoted "meta[name=" "description" "]")
    (lit "content") = Some (repeat 97%N 51) /\
  In "✓ Good meta description"%string
     (details (metadataAnalysis (rt := exampleRuntime) (describedPage 51))) /\
  score (metadataAnalysis (rt := exampleRuntime) (describedPage 51)) = 3 /\
  ~ In "✓ Good meta description"%string
      (details (metadataAnalysis (rt := exampleRuntime) (describedPage 50))) /\
  score (metadataAnalysis (rt := exampleRuntime) (describedPage 50)) = 0.
Proof.
  pose proof (description_bonus_above_50 (rt := exampleRuntime) (describedPage 51)) as H51.
  pose proof (description_bonus_above_50 (rt := exampleRuntime) (describedPage 50)) as H50.
  cbv zeta in H51, H50.
  destruct H51 as (_ & _ & _ & Hyes & _). destruct H50 as (_ & _ & _ & _ & Hno).
  destruct (Hyes (repeat 97%N 51) eq_refl eq_refl) as [Hin Hscore].
  destruct (Hno (repeat 97%N 50) eq_refl eq_refl) as [Hout Hscore'].
  split; [reflexivity|]. split; [exact Hin|]. split.
  - rewrite Hscore. vm_compute. reflexivity.
  - split; [exact Hout|]. rewrite Hscore'. vm_compute. reflexivity.
Defined.
